(** * MySensorsTracker: gateway line decoding and OTA firmware transfer

    A shallow embedding of [ota_firmware.py] (firmware catalog, per-node
    update registry, config/block request handlers, hex/word packing,
    CRC16) and of the line-processing front end of [app.py]
    ([process_gateway_message], [gateway_listener], the f-string that
    formats an outgoing message), followed by the properties proved about
    them.

    Conventions.
    - Python [int] is [Z]; [bytes] is [list byte]; [str] is [string]
      (8-bit characters; code points above 255 are outside the model).
    - A Python [dict] is a [gmap]; the manager object is a record that is
      passed in and returned (explicit state passing).
    - A call that may raise returns [result]: [Ret v] or [Raise]; the state
      returned next to [Raise] is the state at the moment of the raise,
      because dictionary updates before the raise are not undone. *)

From Stdlib Require Import ZArith NArith Strings.String Strings.Ascii Strings.Byte List Lia QArith.
From stdpp Require Import gmap strings list.

Local Open Scope string_scope.
Local Open Scope Z_scope.

(** ** Python built-ins used by the program *)

Module Py.

(** Outcome of a call that may raise. *)
Inductive result (A : Type) : Type :=
| Ret (v : A)
| Raise.
Arguments Ret {A} v.
Arguments Raise {A}.

(** [x or y] on values returned by [dict.get]: the stored values are
    non-empty tuples, which are truthy, so [or] picks the first hit. *)
Definition or_get {A : Type} (x y : option A) : option A :=
  match x with
  | Some v => Some v
  | None => y
  end.

(** Characters [str.strip()] and [int()] treat as white space, for code
    points below 256: TAB..CR, FS..US, SPACE, NEL, NBSP. *)
Definition isspace (c : ascii) : bool :=
  let n := N_of_ascii c in
  ((9 <=? n) && (n <=? 13) || (28 <=? n) && (n <=? 32)
   || (n =? 133) || (n =? 160))%N.

Fixpoint lstrip (s : string) : string :=
  match s with
  | EmptyString => EmptyString
  | String c r => if isspace c then lstrip r else s
  end.

Fixpoint rstrip (s : string) : string :=
  match s with
  | EmptyString => EmptyString
  | String c r =>
      match rstrip r with
      | EmptyString => if isspace c then EmptyString else String c EmptyString
      | r' => String c r'
      end
  end.

(** [s.strip()] *)
Definition strip (s : string) : string := rstrip (lstrip s).

(** [s.split(sep)] for a one-character separator: never returns an empty
    list, and keeps empty fields. *)
Fixpoint split (sep : ascii) (s : string) : list string :=
  match s with
  | EmptyString => [EmptyString]
  | String c r =>
      if Ascii.eqb c sep then EmptyString :: split sep r
      else match split sep r with
           | h :: t => String c h :: t
           | [] => [String c EmptyString]
           end
  end.

Definition isdigit (c : ascii) : bool :=
  let n := N_of_ascii c in ((48 <=? n) && (n <=? 57))%N.

Definition digit_value (c : ascii) : Z := Z.of_N (N_of_ascii c) - 48.

(** Digits of a decimal literal as [int()] accepts them: at least one
    digit, single underscores allowed between digits only. [prev] tells
    whether the previous character was a digit. *)
Fixpoint int_digits (prev : bool) (acc : Z) (s : string) : option Z :=
  match s with
  | EmptyString => if prev then Some acc else None
  | String c r =>
      if isdigit c then int_digits true (10 * acc + digit_value c) r
      else if Ascii.eqb c "_" && prev then int_digits false acc r
      else None
  end.

(** White space that [int()] skips around the number. An ASCII string is
    parsed as it is, and only TAB..CR and SPACE are skipped; in a string
    with a character above 127 the white space above 127 (NEL, NBSP) is
    first turned into spaces, other characters below 127 are kept. FS..US
    are never skipped, although [str.strip()] removes them. *)
Definition int_space (c : ascii) : bool :=
  let n := N_of_ascii c in
  ((9 <=? n) && (n <=? 13) || (n =? 32) || (n =? 133) || (n =? 160))%N.

Fixpoint int_lstrip (s : string) : string :=
  match s with
  | EmptyString => EmptyString
  | String c r => if int_space c then int_lstrip r else s
  end.

Fixpoint int_rstrip (s : string) : string :=
  match s with
  | EmptyString => EmptyString
  | String c r =>
      match int_rstrip r with
      | EmptyString => if int_space c then EmptyString else String c EmptyString
      | r' => String c r'
      end
  end.

(** [int(s)] for a string [s]; [None] stands for [ValueError]. The
    interpreter's cap on the number of digits of a literal (4300 by
    default in recent versions) is not modelled. *)
Definition int (s : string) : option Z :=
  match int_rstrip (int_lstrip s) with
  | EmptyString => None
  | String c r =>
      if Ascii.eqb c "+" then int_digits false 0 r
      else if Ascii.eqb c "-" then Z.opp <$> int_digits false 0 r
      else int_digits false 0 (String c r)
  end.

(** [c in s] for a character [c]. *)
Fixpoint contains (c : ascii) (s : string) : bool :=
  match s with
  | EmptyString => false
  | String d r => Ascii.eqb d c || contains c r
  end.

Definition digit_char (d : Z) : ascii := ascii_of_N (Z.to_N (48 + d)).

(** Decimal digits of a non-negative number, most significant first,
    written in front of [rest]. [fuel] bounds the number of digits. *)
Fixpoint str_digits (fuel : nat) (n : Z) (rest : string) : string :=
  match fuel with
  | O => rest
  | S f =>
      if n <? 10 then String (digit_char n) rest
      else str_digits f (n / 10) (String (digit_char (n mod 10)) rest)
  end.

Definition str_nonneg (n : Z) : string :=
  str_digits (S (Z.to_nat (Z.log2 n))) n EmptyString.

(** [str(n)], also what an f-string prints for an [int]. *)
Definition str (n : Z) : string :=
  if n <? 0 then String "-" (str_nonneg (- n)) else str_nonneg n.

(** [data[start:end]] on [bytes] with [0 <= start]. *)
Definition slice (data : list byte) (start stop : Z) : list byte :=
  take (Z.to_nat (stop - start)) (drop (Z.to_nat start) data).

End Py.

(** ** binascii and struct *)

Module Binascii.

Definition hex_digit (n : N) : ascii :=
  if (n <? 10)%N then ascii_of_N (48 + n) else ascii_of_N (87 + n).

Definition hex_value (c : ascii) : option N :=
  let n := N_of_ascii c in
  if ((48 <=? n) && (n <=? 57))%N then Some (n - 48)%N
  else if ((97 <=? n) && (n <=? 102))%N then Some (n - 87)%N
  else if ((65 <=? n) && (n <=? 70))%N then Some (n - 55)%N
  else None.

(** [binascii.hexlify(data).decode("utf-8")]: two lower-case hex digits
    per byte. *)
Fixpoint hexlify (data : list byte) : string :=
  match data with
  | [] => EmptyString
  | b :: r =>
      let n := Byte.to_N b in
      String (hex_digit (n / 16)) (String (hex_digit (n mod 16)) (hexlify r))
  end.

(** [binascii.unhexlify(s)]; [None] stands for [binascii.Error] (odd
    length or a character that is not a hex digit). *)
Fixpoint unhexlify (s : string) : option (list byte) :=
  match s with
  | EmptyString => Some []
  | String _ EmptyString => None
  | String a (String b r) =>
      match hex_value a, hex_value b, unhexlify r with
      | Some h, Some l, Some bs =>
          match Byte.of_N (16 * h + l) with
          | Some x => Some (x :: bs)
          | None => None
          end
      | _, _, _ => None
      end
  end.

End Binascii.

Module Struct.

Definition byte_of_Z (z : Z) : byte :=
  match Byte.of_N (Z.to_N (z mod 256)) with
  | Some b => b
  | None => x00
  end.

Definition is_uint16 (w : Z) : bool := (0 <=? w) && (w <=? 65535).

(** [struct.pack] with format [<nH]: every argument must fit an unsigned 16-bit
    word, else [struct.error] ([None]). *)
Fixpoint pack_H (ws : list Z) : option (list byte) :=
  match ws with
  | [] => Some []
  | w :: r =>
      if is_uint16 w then
        match pack_H r with
        | Some bs => Some (byte_of_Z w :: byte_of_Z (w / 256) :: bs)
        | None => None
        end
      else None
  end.

(** [struct.unpack] with format [<nH]: the buffer must hold exactly [2n]
    bytes, else [struct.error] ([None]). *)
Fixpoint unpack_H (n : nat) (data : list byte) : option (list Z) :=
  match n, data with
  | O, [] => Some []
  | S k, lo :: hi :: r =>
      match unpack_H k r with
      | Some ws => Some (Z.of_N (Byte.to_N lo) + 256 * Z.of_N (Byte.to_N hi) :: ws)
      | None => None
      end
  | _, _ => None
  end.

End Struct.

(** ** ota_firmware.py *)

Definition FIRMWARE_BLOCK_SIZE : Z := 16.

(** One step of the bitwise, reflected CRC with polynomial 0xA001. *)
Definition crc16_shift (crc : Z) : Z :=
  if Z.testbit crc 0 then Z.lxor (Z.shiftr crc 1) 0xA001 else Z.shiftr crc 1.

Definition crc16_byte (crc : Z) (b : byte) : Z :=
  Nat.iter 8 crc16_shift (Z.lxor crc (Z.of_N (Byte.to_N b))).

(** [compute_crc16]: crcmod's predefined "modbus" function, that is
    CRC-16 with reflected polynomial 0xA001, initial value 0xFFFF and no
    final xor. *)
Definition compute_crc16 (data : list byte) : Z :=
  fold_left crc16_byte data 0xFFFF.

(** The checksum the specification names, CRC16-MODBUS, written from its
    catalogue parameters and not from the code: width 16, polynomial
    0x8005, initial value 0xFFFF, input bytes reflected, result
    reflected, no final xor. The register is the textbook one, shifting
    towards the most significant bit. [compute_crc16] is compared with
    it below. *)
Module Modbus.

(** The low [width] bits of [x] in reverse order. *)
Definition reflect_bits (width : nat) (x : Z) : Z :=
  fold_right
    (fun i acc =>
       Z.lxor (Z.shiftl (Z.b2z (Z.testbit x (Z.of_nat i)))
                        (Z.of_nat (width - 1 - i))) acc)
    0 (seq 0 width).

Definition polynomial : Z := 0x8005.
Definition initial_value : Z := 0xFFFF.

(** One shift of the 16-bit register: the top bit falls out, and the
    polynomial is added when it was set. *)
Definition shift (register : Z) : Z :=
  let shifted := Z.shiftl register 1 mod 65536 in
  if Z.testbit register 15 then Z.lxor shifted polynomial else shifted.

(** A byte enters the register reflected, at the top. *)
Definition feed (register : Z) (b : byte) : Z :=
  Nat.iter 8 shift
    (Z.lxor register (Z.shiftl (reflect_bits 8 (Z.of_N (Byte.to_N b))) 8)).

Definition crc16_modbus (data : list byte) : Z :=
  reflect_bits 16 (fold_left feed data initial_value).

End Modbus.

(** [fw_hex_to_int(hex_str, words)] *)
Definition fw_hex_to_int (hex_str : string) (words : nat) : option (list Z) :=
  match Binascii.unhexlify hex_str with
  | Some bs => Struct.unpack_H words bs
  | None => None
  end.

(** [fw_int_to_hex]: the variadic arguments are given as a list. *)
Definition fw_int_to_hex (args : list Z) : option string :=
  Binascii.hexlify <$> Struct.pack_H args.

(** The firmware dictionary built by [prepare_firmware], with its keys
    ["blocks"], ["crc"] and ["data"] as fields. *)
Record fware : Type := Fware {
  blocks : Z;
  crc : Z;
  data : list byte
}.

(** [prepare_firmware(bin_string)]. The loop appends one 0xFF byte per
    iteration of [range(128 - pads)]. [int(len / 16)] is a float division
    in the source; it is exact for every length below 2^53, and is
    written here as the integer quotient. *)
Definition prepare_firmware (bin_string : list byte) : fware :=
  let pads := Z.of_nat (length bin_string) mod 128 in
  let bin_string :=
    Nat.iter (Z.to_nat (128 - pads)) (fun s => (s ++ [xff])%list) bin_string in
  {| blocks := Z.of_nat (length bin_string) / FIRMWARE_BLOCK_SIZE;
     crc := compute_crc16 bin_string;
     data := bin_string |}.

Module OTAFirmwareManager.

Import Py.

(** The manager object: the catalog and the three phase dictionaries.
    The methods below start with [int(fw_type)], [int(fw_ver)]; every
    caller passes ints, on which the conversion is the identity, so the
    [ValueError] branch is left out. *)
Record t : Type := Mk {
  firmware_store : gmap (Z * Z) fware;
  requested_nodes : gmap Z (Z * Z);
  unstarted_nodes : gmap Z (Z * Z);
  started_nodes : gmap Z (Z * Z)
}.

(** [__init__] *)
Definition init : t :=
  {| firmware_store := ∅; requested_nodes := ∅;
     unstarted_nodes := ∅; started_nodes := ∅ |}.

(** [load_firmware(self, fw_type, fw_ver, fw_path)]. [fw_bin] is what the
    module-level [load_firmware(fw_path)] returned for the file: [None],
    or the binary string of the Intel-HEX image. [not fw_bin] also holds
    for an empty binary string. *)
Definition load_firmware (self : t) (fw_type fw_ver : Z)
    (fw_bin : option (list byte)) : t * bool :=
  match fw_bin with
  | None => (self, false)
  | Some [] => (self, false)
  | Some bin =>
      let fware := prepare_firmware bin in
      ({| firmware_store := <[(fw_type, fw_ver) := fware]> (firmware_store self);
          requested_nodes := requested_nodes self;
          unstarted_nodes := unstarted_nodes self;
          started_nodes := started_nodes self |}, true)
  end.

(** [delete_firmware(self, fw_type, fw_ver)] *)
Definition delete_firmware (self : t) (fw_type fw_ver : Z) : t :=
  match firmware_store self !! (fw_type, fw_ver) with
  | Some _ =>
      {| firmware_store := delete (fw_type, fw_ver) (firmware_store self);
         requested_nodes := requested_nodes self;
         unstarted_nodes := unstarted_nodes self;
         started_nodes := started_nodes self |}
  | None => self
  end.

(** [request_update(self, node_id, fw_type, fw_ver)] *)
Definition request_update (self : t) (node_id fw_type fw_ver : Z) : t * bool :=
  match firmware_store self !! (fw_type, fw_ver) with
  | None => (self, false)
  | Some _ =>
      ({| firmware_store := firmware_store self;
          requested_nodes := <[node_id := (fw_type, fw_ver)]> (requested_nodes self);
          unstarted_nodes := delete node_id (unstarted_nodes self);
          started_nodes := delete node_id (started_nodes self) |}, true)
  end.

(** [handle_firmware_config_request(self, node_id, payload)]. The last
    line packs the response; [struct.error] there propagates to the
    caller after the dictionaries were updated. *)
Definition handle_firmware_config_request (self : t) (node_id : Z)
    (payload : string) : t * result (option string) :=
  match fw_hex_to_int payload 5 with
  | None => (self, Ret None)
  | Some _ =>
      match or_get (requested_nodes self !! node_id)
                   (unstarted_nodes self !! node_id) with
      | None => (self, Ret None)
      | Some (fw_type, fw_ver) =>
          match firmware_store self !! (fw_type, fw_ver) with
          | None => (self, Ret None)
          | Some fware =>
              let self' :=
                {| firmware_store := firmware_store self;
                   requested_nodes := delete node_id (requested_nodes self);
                   unstarted_nodes :=
                     <[node_id := (fw_type, fw_ver)]> (unstarted_nodes self);
                   started_nodes := started_nodes self |} in
              match fw_int_to_hex [fw_type; fw_ver; blocks fware; crc fware] with
              | Some response => (self', Ret (Some response))
              | None => (self', Raise)
              end
          end
      end
  end.

(** [handle_firmware_request(self, node_id, payload)] *)
Definition handle_firmware_request (self : t) (node_id : Z)
    (payload : string) : t * result (option string) :=
  match fw_hex_to_int payload 3 with
  | Some [req_fw_type; req_fw_ver; req_block] =>
      match or_get (unstarted_nodes self !! node_id)
                   (started_nodes self !! node_id) with
      | None => (self, Ret None)
      | Some _ =>
          let fw_type := req_fw_type in
          let fw_ver := req_fw_ver in
          match firmware_store self !! (fw_type, fw_ver) with
          | None => (self, Ret None)
          | Some fware =>
              let self' :=
                {| firmware_store := firmware_store self;
                   requested_nodes := requested_nodes self;
                   unstarted_nodes := delete node_id (unstarted_nodes self);
                   started_nodes :=
                     <[node_id := (fw_type, fw_ver)]> (started_nodes self) |} in
              let start := req_block * FIRMWARE_BLOCK_SIZE in
              let stop := start + FIRMWARE_BLOCK_SIZE in
              let blk_data := slice (data fware) start stop in
              match fw_int_to_hex [fw_type; fw_ver; req_block] with
              | Some payload =>
                  (self', Ret (Some (payload +:+ Binascii.hexlify blk_data)))
              | None => (self', Raise)
              end
          end
      end
  | _ => (self, Ret None)
  end.

(** [is_reboot_required(self, node_id)] *)
Definition is_reboot_required (self : t) (node_id : Z) : bool :=
  bool_decide (is_Some (requested_nodes self !! node_id)).

(** [get_node_status(self, node_id)] *)
Definition get_node_status (self : t) (node_id : Z) : option string :=
  if bool_decide (is_Some (requested_nodes self !! node_id)) then Some "requested"
  else if bool_decide (is_Some (unstarted_nodes self !! node_id)) then Some "unstarted"
  else if bool_decide (is_Some (started_nodes self !! node_id)) then Some "started"
  else None.

(** The calls that reach the manager, as data, and their effect on it. *)
Inductive call : Type :=
| LoadFirmware (fw_type fw_ver : Z) (fw_bin : option (list byte))
| DeleteFirmware (fw_type fw_ver : Z)
| RequestUpdate (node_id fw_type fw_ver : Z)
| ConfigRequest (node_id : Z) (payload : string)
| BlockRequest (node_id : Z) (payload : string).

Definition step (self : t) (c : call) : t :=
  match c with
  | LoadFirmware ty ve bin => fst (load_firmware self ty ve bin)
  | DeleteFirmware ty ve => delete_firmware self ty ve
  | RequestUpdate n ty ve => fst (request_update self n ty ve)
  | ConfigRequest n p => fst (handle_firmware_config_request self n p)
  | BlockRequest n p => fst (handle_firmware_request self n p)
  end.

(** The manager after a sequence of calls, oldest first. *)
Definition run (self : t) (cs : list call) : t := fold_left step cs self.

End OTAFirmwareManager.

(** ** app.py: the gateway line front end *)

Module Gateway.

Import Py.

(** The module globals [last_message] and [last_time]. Clock readings
    ([time.time()], seconds) are rationals; float rounding is not
    modelled. *)
Record state : Type := MkState {
  last_message : string;
  last_time : Q
}.

(** The globals as the module sets them when it is loaded: no line seen,
    and the clock reading [t0] of that moment. *)
Definition initial (t0 : Q) : state :=
  {| last_message := EmptyString; last_time := t0 |}.

(** How one call of [process_gateway_message] ends. [Decoded] means the
    five integers and the payload were extracted and the message went on
    to [add_message] and the command dispatch, which belong to the
    storage and UI layer and are not modelled. *)
Inductive outcome : Type :=
| Blank
| Duplicate
| InvalidFormat
| SystemExit
| Decoded (nid cid cmd ack typ : Z) (val : string).

(** Lines 796..806: the fields of a stripped line. A [ValueError] from
    [int()] is caught by the function's [except Exception] handler, which
    prints it and calls [sys.exit(1)]. *)
Definition decode_fields (line : string) : outcome :=
  match split ";" line with
  | p0 :: p1 :: p2 :: p3 :: p4 :: p5 :: _ =>
      match int p0, int p1, int p2, int p3, int p4 with
      | Some nid, Some cid, Some cmd, Some ack, Some typ =>
          Decoded nid cid cmd ack typ p5
      | _, _, _, _, _ => SystemExit
      end
  | _ => InvalidFormat
  end.

(** [process_gateway_message(line)], with the clock reading [now]. *)
Definition process_gateway_message (st : state) (now : Q) (line : string)
    : state * outcome :=
  let line := strip line in
  if String.eqb line EmptyString then (st, Blank)
  else
    let isnew := negb (String.eqb (last_message st) line)
                 || negb (Qle_bool (now - last_time st) 1) in
    let st' := {| last_message := line; last_time := now |} in
    if negb isnew then (st', Duplicate)
    else (st', decode_fields line).

(** What happens to a decoded message in the rest of the [try] block
    (lines 808..863: [add_message], the live-update queue, the dispatch to
    the handlers) belongs to the storage and UI layer. It is a parameter:
    [downstream now nid cid cmd ack typ val] tells whether that part
    returns for the message processed at clock reading [now]; [false]
    means it raises, and then the same [except] handler prints the error
    and calls [sys.exit(1)]. *)
Definition storage : Type := Q -> Z -> Z -> Z -> Z -> Z -> string -> bool.

(** The inner loop of [gateway_listener] over the lines framed out of the
    receive buffer, each with the clock reading taken while it is
    processed. [SystemExit] is not an [Exception], so the listener's
    handler does not catch it: the thread ends and the remaining lines are
    never read. This happens when [int()] fails on a field, and when the
    storage and dispatch of a decoded message raise. The boolean tells
    whether the loop is still running. *)
Fixpoint gateway_listener (downstream : storage) (st : state)
    (lines : list (Q * string)) : state * list outcome * bool :=
  match lines with
  | [] => (st, [], true)
  | (now, line) :: rest =>
      match process_gateway_message st now line with
      | (st', SystemExit) => (st', [SystemExit], false)
      | (st', Decoded nid cid cmd ack typ val) =>
          if downstream now nid cid cmd ack typ val then
            let '(st'', os, alive) := gateway_listener downstream st' rest in
            (st'', Decoded nid cid cmd ack typ val :: os, alive)
          else (st', [SystemExit], false)
      | (st', o) =>
          let '(st'', os, alive) := gateway_listener downstream st' rest in
          (st'', o :: os, alive)
      end
  end.

(** The f-string of [send_custom_message] (line 1542), which formats an
    outgoing message. *)
Definition format_message (node_id child_id command ack msg_type : Z)
    (payload : string) : string :=
  str node_id +:+ ";" +:+ str child_id +:+ ";" +:+ str command +:+ ";"
  +:+ str ack +:+ ";" +:+ str msg_type +:+ ";" +:+ payload.

End Gateway.

(** ** Predicates and sample data used in the statements *)

Section Predicates.

Import Py OTAFirmwareManager Gateway.

(** A node has an entry in at most one of the three phase dictionaries. *)
Definition at_most_one_phase (self : OTAFirmwareManager.t) (node_id : Z) : Prop :=
  (requested_nodes self !! node_id = None /\ unstarted_nodes self !! node_id = None)
  \/ (requested_nodes self !! node_id = None /\ started_nodes self !! node_id = None)
  \/ (unstarted_nodes self !! node_id = None /\ started_nodes self !! node_id = None).

(** Every character of [s] satisfies [P]. *)
Fixpoint every (P : ascii -> bool) (s : string) : bool :=
  match s with
  | EmptyString => true
  | String c r => P c && every P r
  end.

(** [P] holds of [lo], [lo + 1], ..., [lo + n - 1]. *)
Fixpoint all_from (n : nat) (lo : Z) (P : Z -> bool) : bool :=
  match n with
  | O => true
  | S k => P lo && all_from k (lo + 1) P
  end.

(** The line is not a repeat of the remembered one within a second. *)
Definition fresh (st : state) (now : Q) (line : string) : Prop :=
  last_message st <> line \/ (1 < now - last_time st)%Q.

End Predicates.

Module Sample.

Import OTAFirmwareManager.

(** A 320-byte image of zero bytes and a 200-byte image of 0x01 bytes. *)
Definition image_320 : list byte := replicate 320 x00.
Definition image_200 : list byte := replicate 200 x01.

(** A config request as a node sends it: five words. *)
Definition config_payload : string := "0100010000000000ffff".

(** Firmware (3,2) loaded, node 7 scheduled for it. *)
Definition scheduled : OTAFirmwareManager.t :=
  run init [LoadFirmware 3 2 (Some image_320); RequestUpdate 7 3 2].

(** As [scheduled], then the firmware is deleted from the catalog. *)
Definition scheduled_then_deleted : OTAFirmwareManager.t :=
  run scheduled [DeleteFirmware 3 2].

(** Two images loaded, node 7 scheduled for (3,2) and past its config
    request. *)
Definition unstarted_3_2 : OTAFirmwareManager.t :=
  run init [LoadFirmware 3 2 (Some image_320); LoadFirmware 9 9 (Some image_200);
            RequestUpdate 7 3 2; ConfigRequest 7 config_payload].

(** As [unstarted_3_2], then node 7 pulls block 1 of firmware (9,9) and is
    started. *)
Definition started_9_9 : OTAFirmwareManager.t :=
  run unstarted_3_2 [BlockRequest 7 "090009000100"].

(** As [unstarted_3_2], then firmware (3,2) is deleted from the catalog. *)
Definition unstarted_then_deleted : OTAFirmwareManager.t :=
  run unstarted_3_2 [DeleteFirmware 3 2].

End Sample.

(** ** app.py: sensor and value ids *)

(** [make_usid(nid, cid)] *)
Definition make_usid (nid cid : Z) : Z := 1000 * nid + cid.

(** [split_usid(usid)]: [//] and [%] round towards minus infinity, as
    [Z.div] and [Z.modulo] do for a positive divisor. *)
Definition split_usid (usid : Z) : Z * Z := (usid / 1000, usid mod 1000).

(** [make_uvid(nid, cid, typ)] *)
Definition make_uvid (nid cid typ : Z) : Z :=
  1000000 * typ + 1000 * nid + cid.

(** ** app.py: the receive buffer and the outgoing side *)

Module Link.

Import Py OTAFirmwareManager Gateway.

Definition newline : ascii := "010"%char.

(** [sep in s], and then [s.split(sep, 1)]: the text before the first
    separator and the text after it; [None] when [sep] is not in [s]. *)
Fixpoint split_once (sep : ascii) (s : string) : option (string * string) :=
  match s with
  | EmptyString => None
  | String c r =>
      if Ascii.eqb c sep then Some (EmptyString, r)
      else match split_once sep r with
           | Some (h, t) => Some (String c h, t)
           | None => None
           end
  end.

(** The framing loop of [gateway_listener] (lines 1961..1963): while a
    newline is in the buffer, cut the first line off. Returns the lines in
    the order they are handed to [process_gateway_message] (as long as
    no call ends the thread), and the buffer that is kept for the next
    read. Every turn shortens the buffer, so
    [fuel] bounds the number of turns. *)
Fixpoint frame_lines (fuel : nat) (buffer : string) : list string * string :=
  match fuel with
  | O => ([], buffer)
  | S f =>
      match split_once newline buffer with
      | None => ([], buffer)
      | Some (line, rest) =>
          let '(lines, kept) := frame_lines f rest in (line :: lines, kept)
      end
  end.

Definition frame (buffer : string) : list string * string :=
  frame_lines (String.length buffer) buffer.

(** How a call of [sendall] ends: the whole text is written, or an
    exception is raised after only the first [n] characters got out. *)
Inductive sendall : Type :=
| Sent
| Failed (n : nat).

(** The first [n] characters of [s]. *)
Fixpoint first_chars (n : nat) (s : string) : string :=
  match n, s with
  | S k, String c r => String c (first_chars k r)
  | _, _ => EmptyString
  end.

(** [send_message_to_gateway(message)]. The socket is represented by the
    text written to it so far, [None] when there is no socket; [io] is
    how [sendall] ends if it is called. Without a socket the message is
    dropped. An exception of [sendall] is caught and logged here: the
    caller is not told, and the socket is kept. *)
Definition send_message_to_gateway (gateway_socket : option string)
    (message : string) (io : sendall) : option string :=
  match gateway_socket with
  | Some written =>
      let msg := message +:+ String newline EmptyString in
      match io with
      | Sent => Some (written +:+ msg)
      | Failed n => Some (written +:+ first_chars n msg)
      end
  | None => None
  end.

(** The fields of the form posted to [send_custom_message]; a field that
    is absent from the form is [None]. *)
Record form : Type := Form {
  f_node_id : option string;
  f_child_id : option string;
  f_command : option string;
  f_ack : option string;
  f_msg_type : option string;
  f_payload : option string
}.

(** [int(request.form.get(name, default))]: the default is an [int]. *)
Definition form_int (field : option string) (default : Z) : option Z :=
  match field with
  | Some s => int s
  | None => Some default
  end.

(** The message [send_custom_message] flashes. *)
Inductive flash : Type :=
| NotConnected
| InvalidInput
| NodeIdRange
| ChildIdRange
| CommandRange
| AckRange
| TypeRange
| MessageSent (message : string).

Definition in_range (lo hi x : Z) : bool := (lo <=? x) && (x <=? hi).

(** [send_custom_message()], from the socket and the posted form to the
    socket afterwards and the flashed message. "Message sent" is flashed
    after [send_message_to_gateway] returns, also when [sendall] failed
    inside it. *)
Definition send_custom_message (gateway_socket : option string) (f : form)
    (io : sendall) : option string * flash :=
  match gateway_socket with
  | None => (gateway_socket, NotConnected)
  | Some _ =>
      match form_int (f_node_id f) 255, form_int (f_child_id f) 255,
            form_int (f_command f) 3, form_int (f_ack f) 0,
            form_int (f_msg_type f) 13 with
      | Some node_id, Some child_id, Some command, Some ack, Some msg_type =>
          let payload := strip (default EmptyString (f_payload f)) in
          if negb (in_range 0 255 node_id) then (gateway_socket, NodeIdRange)
          else if negb (in_range 0 255 child_id) then (gateway_socket, ChildIdRange)
          else if negb (in_range 0 4 command) then (gateway_socket, CommandRange)
          else if negb (in_range 0 1 ack) then (gateway_socket, AckRange)
          else if negb (in_range 0 255 msg_type) then (gateway_socket, TypeRange)
          else
            let message :=
              format_message node_id child_id command ack msg_type payload in
            (send_message_to_gateway gateway_socket message io,
             MessageSent message)
      | _, _, _, _, _ => (gateway_socket, InvalidInput)
      end
  end.

(** [if response:] on a value that is [None] or a string. *)
Definition truthy (response : option string) : option string :=
  match response with
  | Some EmptyString => None
  | r => r
  end.

(** The constants of the [mysensors] module, which is not part of the
    sources at hand, are parameters. *)
Section Constants.

Variables C_INTERNAL C_STREAM I_REBOOT : Z.
Variables I_HEARTBEAT_RESPONSE I_POST_SLEEP_NOTIFICATION : Z.
Variables ST_FIRMWARE_CONFIG_REQUEST ST_FIRMWARE_CONFIG_RESPONSE : Z.
Variables ST_FIRMWARE_REQUEST ST_FIRMWARE_RESPONSE : Z.

(** The f-string of [send_reboot_request] (line 1890), also the one of
    [test_reboot_message] in test_reboot.py with [ack = 0]. *)
Definition reboot_message (node_id : Z) (request_ack : bool) : string :=
  let ack := if request_ack then 1 else 0 in
  str node_id +:+ ";255;" +:+ str C_INTERNAL +:+ ";" +:+ str ack +:+ ";"
  +:+ str I_REBOOT +:+ ";".

(** [send_reboot_request(node_id, request_ack)] *)
Definition send_reboot_request (gateway_socket : option string)
    (node_id : Z) (request_ack : bool) (io : sendall) : option string :=
  send_message_to_gateway gateway_socket (reboot_message node_id request_ack) io.

(** [handle_stream_message(node_id, child_id, stream_type, payload)]:
    the manager afterwards and the response line. An exception raised by
    a handler is caught and logged here; the changes the handler made
    before it stay. *)
Definition handle_stream_message (ota_manager : option OTAFirmwareManager.t)
    (node_id child_id stream_type : Z) (payload : string)
    : option OTAFirmwareManager.t * option string :=
  match ota_manager with
  | None => (None, None)
  | Some m =>
      if stream_type =? ST_FIRMWARE_CONFIG_REQUEST then
        match handle_firmware_config_request m node_id payload with
        | (m', Ret response_payload) =>
            match truthy response_payload with
            | Some p =>
                (Some m',
                 Some (str node_id +:+ ";255;" +:+ str C_STREAM +:+ ";0;"
                       +:+ str ST_FIRMWARE_CONFIG_RESPONSE +:+ ";" +:+ p))
            | None => (Some m', None)
            end
        | (m', Raise) => (Some m', None)
        end
      else if stream_type =? ST_FIRMWARE_REQUEST then
        match handle_firmware_request m node_id payload with
        | (m', Ret response_payload) =>
            match truthy response_payload with
            | Some p =>
                (Some m',
                 Some (str node_id +:+ ";255;" +:+ str C_STREAM +:+ ";0;"
                       +:+ str ST_FIRMWARE_RESPONSE +:+ ";" +:+ p))
            | None => (Some m', None)
            end
        | (m', Raise) => (Some m', None)
        end
      else (Some m, None)
  end.

(** Lines 846..849 of [process_gateway_message]: a stream message goes to
    [handle_stream_message], and the response, if any, to the gateway. *)
Definition on_stream (ota_manager : option OTAFirmwareManager.t)
    (gateway_socket : option string) (nid cid typ : Z) (val : string)
    (io : sendall) : option OTAFirmwareManager.t * option string :=
  match handle_stream_message ota_manager nid cid typ val with
  | (ota', response) =>
      match truthy response with
      | Some r => (ota', send_message_to_gateway gateway_socket r io)
      | None => (ota', gateway_socket)
      end
  end.

(** Lines 860..863 of [process_gateway_message]: after an internal
    message was stored, a heartbeat or wake-up of a node that is scheduled
    for an update is answered with a reboot request. *)
Definition reboot_if_required (ota_manager : option OTAFirmwareManager.t)
    (gateway_socket : option string) (nid typ : Z) (io : sendall)
    : option string :=
  if (typ =? I_HEARTBEAT_RESPONSE) || (typ =? I_POST_SLEEP_NOTIFICATION) then
    match ota_manager with
    | Some m =>
        if is_reboot_required m nid
        then send_reboot_request gateway_socket nid false io
        else gateway_socket
    | None => gateway_socket
    end
  else gateway_socket.

End Constants.

End Link.

(** ** More predicates used in the statements *)

Section MorePredicates.

Import Py.

(** [s.count(c)] for a character [c]. *)
Fixpoint count (c : ascii) (s : string) : nat :=
  match s with
  | EmptyString => O
  | String d r => if Ascii.eqb d c then S (count c r) else count c r
  end.

(** The lines, each followed by a newline, one after the other. *)
Fixpoint unlines (lines : list string) : string :=
  match lines with
  | [] => EmptyString
  | l :: r => l +:+ String Link.newline (unlines r)
  end.

(** [[lo, lo+1, ..., lo+n-1]] *)
Fixpoint upto (lo : Z) (n : nat) : list Z :=
  match n with
  | O => []
  | S k => lo :: upto (lo + 1) k
  end.

(** Every catalog entry is what [prepare_firmware] built from some
    binary string. *)
Definition catalog_prepared (self : OTAFirmwareManager.t) : Prop :=
  forall id fw, OTAFirmwareManager.firmware_store self !! id = Some fw ->
                exists bin, fw = prepare_firmware bin.

(** Each time is at most one second after the one before it, [prev]
    being before the first. *)
Fixpoint gaps_within (prev : Q) (ts : list Q) : Prop :=
  match ts with
  | [] => True
  | t :: r => (t - prev <= 1)%Q /\ gaps_within t r
  end.

(** A character that is neither white space nor the field separator. *)
Definition plain (c : ascii) : bool :=
  negb (isspace c) && negb (Ascii.eqb c ";").

(** Several calls of [send_message_to_gateway], one after the other,
    [sendall] succeeding each time. *)
Definition send_all (gateway_socket : option string) (messages : list string)
    : option string :=
  fold_left (fun socket message =>
               Link.send_message_to_gateway socket message Link.Sent)
            messages gateway_socket.

(** The call left the catalog alone, and the entries of node [m] in the
    three phase dictionaries too. *)
Definition untouched (self self' : OTAFirmwareManager.t) (m : Z) : Prop :=
  OTAFirmwareManager.firmware_store self' = OTAFirmwareManager.firmware_store self
  /\ OTAFirmwareManager.requested_nodes self' !! m
     = OTAFirmwareManager.requested_nodes self !! m
  /\ OTAFirmwareManager.unstarted_nodes self' !! m
     = OTAFirmwareManager.unstarted_nodes self !! m
  /\ OTAFirmwareManager.started_nodes self' !! m
     = OTAFirmwareManager.started_nodes self !! m.

End MorePredicates.

(** * Properties *)

(** ** Hex strings and 16-bit words *)

Section Words.

Import Binascii Struct.

Lemma hex_value_digit (n : N) :
  (n < 16)%N -> hex_value (hex_digit n) = Some n.
Proof.
  intros Hn.
  destruct n as [|p]; [reflexivity|].
  do 4 (destruct p as [p|p|]; try reflexivity); lia.
Qed.

Lemma unhexlify_hexlify (bs : list byte) :
  unhexlify (hexlify bs) = Some bs.
Proof.
  induction bs as [|b bs IH]; [reflexivity|].
  cbn [hexlify unhexlify].
  pose proof (Byte.to_N_bounded b) as Hb.
  rewrite !hex_value_digit, IH.
  - replace (16 * (Byte.to_N b / 16) + Byte.to_N b mod 16)%N
      with (Byte.to_N b) by (rewrite <- N.div_mod; lia).
    now rewrite Byte.of_to_N.
  - apply N.mod_lt; lia.
  - apply N.Div0.div_lt_upper_bound; lia.
Qed.

Lemma to_N_byte_of_Z (z : Z) :
  Z.of_N (Byte.to_N (byte_of_Z z)) = z mod 256.
Proof.
  unfold byte_of_Z.
  pose proof (Z.mod_pos_bound z 256 ltac:(lia)) as Hm.
  destruct (Byte.of_N (Z.to_N (z mod 256))) as [b|] eqn:E.
  - apply Byte.to_of_N in E. rewrite E. lia.
  - apply Byte.of_N_None_iff in E. lia.
Qed.

Lemma is_uint16_spec (w : Z) : is_uint16 w = true <-> 0 <= w <= 65535.
Proof. unfold is_uint16. rewrite andb_true_iff, !Z.leb_le. tauto. Qed.

Lemma unpack_pack (ws : list Z) (bs : list byte) :
  pack_H ws = Some bs -> unpack_H (length ws) bs = Some ws.
Proof.
  revert bs; induction ws as [|w ws IH]; intros bs H; cbn in *.
  - now inversion H.
  - destruct (is_uint16 w) eqn:Hw; [|discriminate].
    destruct (pack_H ws) as [bs'|]; [|discriminate].
    inversion H; subst; clear H. cbn.
    rewrite (IH bs' eq_refl), !to_N_byte_of_Z.
    apply is_uint16_spec in Hw.
    do 2 f_equal.
    rewrite (Z.mod_small (w / 256)) by (split; [apply Z.div_pos|apply Z.div_lt_upper_bound]; lia).
    pose proof (Z.div_mod w 256 ltac:(lia)). lia.
Qed.

Lemma unpack_uint16 (n : nat) (bs : list byte) (ws : list Z) :
  unpack_H n bs = Some ws ->
  length ws = n /\ Forall (fun w => is_uint16 w = true) ws.
Proof.
  revert bs ws; induction n as [|n IH]; intros bs ws H.
  - destruct bs; [|discriminate]. inversion H. split; [reflexivity|constructor].
  - destruct bs as [|lo [|hi r]]; try discriminate. cbn in H.
    destruct (unpack_H n r) as [ws'|] eqn:E; [|discriminate].
    inversion H; subst; clear H.
    destruct (IH _ _ E) as [Hl Hf].
    split; [cbn; now rewrite Hl|].
    constructor; [|exact Hf].
    apply is_uint16_spec.
    pose proof (Byte.to_N_bounded lo). pose proof (Byte.to_N_bounded hi). lia.
Qed.

Lemma pack_uint16 (ws : list Z) :
  Forall (fun w => is_uint16 w = true) ws -> is_Some (pack_H ws).
Proof.
  induction 1 as [|w ws Hw _ [bs IH]]; cbn.
  - now exists [].
  - rewrite Hw, IH. eauto.
Qed.

(** What [fw_int_to_hex] packs, [fw_hex_to_int] unpacks. *)
Lemma fw_hex_to_int_to_hex (ws : list Z) (h : string) :
  fw_int_to_hex ws = Some h -> fw_hex_to_int h (length ws) = Some ws.
Proof.
  unfold fw_int_to_hex, fw_hex_to_int.
  destruct (pack_H ws) as [bs|] eqn:E; [|discriminate].
  cbn. intros [= <-]. rewrite unhexlify_hexlify. now apply unpack_pack.
Qed.

(** Words that came out of [fw_hex_to_int] can always be packed again. *)
Lemma fw_int_to_hex_decoded (p : string) (n : nat) (ws : list Z) :
  fw_hex_to_int p n = Some ws -> is_Some (fw_int_to_hex ws).
Proof.
  unfold fw_hex_to_int, fw_int_to_hex.
  destruct (unhexlify p) as [bs|]; [|discriminate].
  intros H. apply unpack_uint16 in H as [_ Hf].
  destruct (pack_uint16 ws Hf) as [bs' ->]. cbn. eauto.
Qed.

Lemma fw_hex_to_int_uint16 (p : string) (n : nat) (ws : list Z) :
  fw_hex_to_int p n = Some ws ->
  length ws = n /\ Forall (fun w => 0 <= w <= 65535) ws.
Proof.
  unfold fw_hex_to_int.
  destruct (unhexlify p) as [bs|]; [|discriminate].
  intros H. apply unpack_uint16 in H as [Hl Hf]. split; [exact Hl|].
  eapply Forall_impl; [exact Hf|]. intros w. apply is_uint16_spec.
Qed.

End Words.

(** ** CRC16 *)

Lemma lxor_uint16 (a b : Z) :
  0 <= a < 65536 -> 0 <= b < 65536 -> 0 <= Z.lxor a b < 65536.
Proof.
  intros Ha Hb.
  assert (H0 : 0 <= Z.lxor a b) by (apply Z.lxor_nonneg; lia).
  split; [exact H0|].
  destruct (Z.eq_dec (Z.lxor a b) 0) as [->|Hne]; [lia|].
  change 65536 with (2 ^ 16). apply Z.log2_lt_pow2; [lia|].
  assert (Hl : forall x, 0 <= x < 65536 -> Z.log2 x < 16).
  { intros x Hx. destruct (Z.eq_dec x 0) as [->|]; [cbn; lia|].
    apply Z.log2_lt_pow2; [lia|]. change (2 ^ 16) with 65536. lia. }
  pose proof (Z.log2_lxor a b ltac:(lia) ltac:(lia)).
  pose proof (Hl a Ha). pose proof (Hl b Hb). lia.
Qed.

Lemma crc16_shift_uint16 (c : Z) :
  0 <= c < 65536 -> 0 <= crc16_shift c < 65536.
Proof.
  intros Hc. unfold crc16_shift.
  assert (0 <= Z.shiftr c 1 < 65536).
  { rewrite Z.shiftr_div_pow2 by lia. change (2 ^ 1) with 2.
    split; [apply Z.div_pos; lia|apply Z.div_lt_upper_bound; lia]. }
  destruct (Z.testbit c 0); [apply lxor_uint16; lia|lia].
Qed.

Lemma crc16_byte_uint16 (c : Z) (b : byte) :
  0 <= c < 65536 -> 0 <= crc16_byte c b < 65536.
Proof.
  intros Hc. unfold crc16_byte. cbn [Nat.iter nat_rect].
  pose proof (Byte.to_N_bounded b).
  do 8 apply crc16_shift_uint16.
  apply lxor_uint16; lia.
Qed.

(** The checksum always fits an unsigned 16-bit word. *)
Lemma compute_crc16_uint16 (data : list byte) :
  0 <= compute_crc16 data <= 65535.
Proof.
  unfold compute_crc16.
  assert (H : forall d c, 0 <= c < 65536 -> 0 <= fold_left crc16_byte d c < 65536).
  { induction d as [|b d IH]; intros c Hc; [exact Hc|].
    cbn. apply IH. now apply crc16_byte_uint16. }
  specialize (H data 0xFFFF). lia.
Qed.

(** *** [compute_crc16] computes the CRC16-MODBUS of the specification *)

Section ModbusRefinement.

Import Modbus.

Lemma all_from_spec (n : nat) (lo : Z) (P : Z -> bool) :
  all_from n lo P = true ->
  forall z, lo <= z < lo + Z.of_nat n -> P z = true.
Proof.
  revert lo. induction n as [|n IH]; intros lo H z Hz; [lia|].
  cbn [all_from] in H. apply andb_true_iff in H as [H0 H1].
  destruct (Z.eq_dec z lo) as [->|Hne]; [exact H0|].
  apply (IH (lo + 1) H1). lia.
Qed.

Lemma below_checked (bound : Z) (P : Z -> bool) :
  all_from (Z.to_nat bound) 0 P = true ->
  forall z, 0 <= z < bound -> P z = true.
Proof.
  intros H z Hz. apply (all_from_spec _ _ _ H). lia.
Qed.

Lemma reflect_bits_lxor (width : nat) (x y : Z) :
  reflect_bits width (Z.lxor x y)
  = Z.lxor (reflect_bits width x) (reflect_bits width y).
Proof.
  unfold reflect_bits. induction (seq 0 width) as [|i l IH]; [reflexivity|].
  cbn [fold_right]. rewrite IH, Z.lxor_spec.
  set (k := Z.of_nat (width - 1 - i)).
  assert (Hb : forall p q, Z.b2z (xorb p q) = Z.lxor (Z.b2z p) (Z.b2z q))
    by (intros [] []; reflexivity).
  rewrite Hb, Z.shiftl_lxor.
  set (a := Z.shiftl (Z.b2z (Z.testbit x (Z.of_nat i))) k).
  set (b := Z.shiftl (Z.b2z (Z.testbit y (Z.of_nat i))) k).
  set (A := fold_right _ 0 l). set (B := fold_right _ 0 l).
  rewrite !Z.lxor_assoc. f_equal.
  rewrite <- !Z.lxor_assoc. f_equal. apply Z.lxor_comm.
Qed.

(** Reflecting turns one shift of the specification's register into one
    shift of the code's register; checked on all 65536 register values. *)
Lemma shift_reflected (c : Z) :
  0 <= c < 65536 ->
  reflect_bits 16 (shift c) = crc16_shift (reflect_bits 16 c).
Proof.
  intros Hc.
  apply Z.eqb_eq.
  apply (below_checked 65536
           (fun c => reflect_bits 16 (shift c) =? crc16_shift (reflect_bits 16 c)));
    [vm_compute; reflexivity|exact Hc].
Qed.

Lemma shift_uint16 (c : Z) : 0 <= c < 65536 -> 0 <= shift c < 65536.
Proof.
  intros Hc. unfold shift.
  pose proof (Z.mod_pos_bound (Z.shiftl c 1) 65536 ltac:(lia)).
  destruct (Z.testbit c 15); [apply lxor_uint16; unfold polynomial; lia|lia].
Qed.

Lemma shifts_reflected (k : nat) (c : Z) :
  0 <= c < 65536 ->
  reflect_bits 16 (Nat.iter k shift c)
    = Nat.iter k crc16_shift (reflect_bits 16 c)
  /\ 0 <= Nat.iter k shift c < 65536.
Proof.
  intros Hc. induction k as [|k [IH1 IH2]]; [now split|].
  rewrite !Nat.iter_succ. split.
  - now rewrite shift_reflected, IH1.
  - now apply shift_uint16.
Qed.

(** A byte that enters reflected at the top is the byte itself after
    reflecting the register; checked on all 256 bytes. *)
Lemma byte_reflected (v : Z) :
  0 <= v < 256 ->
  reflect_bits 16 (Z.shiftl (reflect_bits 8 v) 8) = v
  /\ 0 <= Z.shiftl (reflect_bits 8 v) 8 < 65536.
Proof.
  intros Hv.
  pose proof (below_checked 256
    (fun v => (reflect_bits 16 (Z.shiftl (reflect_bits 8 v) 8) =? v)
              && (0 <=? Z.shiftl (reflect_bits 8 v) 8)
              && (Z.shiftl (reflect_bits 8 v) 8 <? 65536))
    ltac:(vm_compute; reflexivity) v Hv) as H.
  cbv beta in H. rewrite !andb_true_iff in H. destruct H as [[H1 H2] H3].
  apply Z.eqb_eq in H1. apply Z.leb_le in H2. apply Z.ltb_lt in H3. lia.
Qed.

Lemma feed_reflected (c : Z) (b : byte) :
  0 <= c < 65536 ->
  reflect_bits 16 (feed c b) = crc16_byte (reflect_bits 16 c) b
  /\ 0 <= feed c b < 65536.
Proof.
  intros Hc. unfold feed, crc16_byte.
  pose proof (Byte.to_N_bounded b) as Hb.
  destruct (byte_reflected (Z.of_N (Byte.to_N b)) ltac:(lia)) as [Hr Hs].
  destruct (shifts_reflected 8
              (Z.lxor c (Z.shiftl (reflect_bits 8 (Z.of_N (Byte.to_N b))) 8)))
    as [H1 H2]; [now apply lxor_uint16|].
  split; [|exact H2]. now rewrite H1, reflect_bits_lxor, Hr.
Qed.

(** The code's checksum is the CRC16-MODBUS of the specification. *)
Lemma compute_crc16_is_modbus (data : list byte) :
  compute_crc16 data = crc16_modbus data.
Proof.
  unfold compute_crc16, crc16_modbus.
  assert (H : forall d c, 0 <= c < 65536 ->
            reflect_bits 16 (fold_left feed d c)
            = fold_left crc16_byte d (reflect_bits 16 c)).
  { induction d as [|b d IH]; intros c Hc; [reflexivity|]. cbn [fold_left].
    destruct (feed_reflected c b Hc) as [H1 H2]. now rewrite IH, H1. }
  rewrite H by (unfold initial_value; lia). reflexivity.
Qed.

End ModbusRefinement.

(** The check value of CRC-16/MODBUS: the checksum of [123456789] is
    0x4B37. *)
Example compute_crc16_check :
  compute_crc16 (list_byte_of_string "123456789") = 0x4B37.
Proof. vm_compute. reflexivity. Qed.

Example crc16_modbus_check :
  Modbus.crc16_modbus (list_byte_of_string "123456789") = 0x4B37.
Proof. vm_compute. reflexivity. Qed.

(** ** Firmware preparation *)

Lemma pad_loop (n : nat) (bin : list byte) :
  Nat.iter n (fun s => (s ++ [xff])%list) bin = (bin ++ replicate n xff)%list.
Proof.
  induction n as [|n IH].
  - cbn. now rewrite app_nil_r.
  - rewrite Nat.iter_succ, IH, <- app_assoc. f_equal.
    clear IH. induction n as [|n IH]; [reflexivity|]. cbn. now rewrite IH.
Qed.

Lemma prepare_firmware_data (bin : list byte) :
  data (prepare_firmware bin) =
  (bin ++ replicate (128 - length bin mod 128)%nat xff)%list.
Proof.
  unfold prepare_firmware; cbn [data]. rewrite pad_loop. do 2 f_equal.
  pose proof (Nat.mod_upper_bound (length bin) 128 ltac:(lia)).
  rewrite <- (Nat2Z.id (128 - length bin mod 128)). f_equal.
  rewrite Nat2Z.inj_sub by lia. rewrite Nat2Z.inj_mod. reflexivity.
Qed.

Lemma prepare_firmware_length (bin : list byte) :
  Z.of_nat (length (data (prepare_firmware bin))) =
  128 * (Z.of_nat (length bin) / 128 + 1).
Proof.
  rewrite prepare_firmware_data, length_app, length_replicate.
  pose proof (Nat.mod_upper_bound (length bin) 128 ltac:(lia)).
  rewrite Nat2Z.inj_add, Nat2Z.inj_sub, Nat2Z.inj_mod by lia.
  pose proof (Z.div_mod (Z.of_nat (length bin)) 128 ltac:(lia)). lia.
Qed.

(** C7. For every binary string handed to [prepare_firmware], the prepared
    entry holds the input followed by 0xFF bytes, the length of its data
    is a multiple of 128, [blocks] is that length divided by 16 (exactly),
    and [crc] is the CRC16-MODBUS of the padded data: the value of the
    specification's CRC ([Modbus.crc16_modbus]), which is what the code's
    [compute_crc16] returns. *)
Theorem prepare_firmware_entry (bin : list byte) :
  let fw := prepare_firmware bin in
  Z.of_nat (length (data fw)) mod 128 = 0
  /\ blocks fw = Z.of_nat (length (data fw)) / 16
  /\ 16 * blocks fw = Z.of_nat (length (data fw))
  /\ crc fw = compute_crc16 (data fw)
  /\ crc fw = Modbus.crc16_modbus (data fw)
  /\ exists n, data fw = (bin ++ replicate n xff)%list.
Proof.
  cbv zeta.
  pose proof (prepare_firmware_length bin) as Hlen.
  assert (Hb : blocks (prepare_firmware bin)
               = Z.of_nat (length (data (prepare_firmware bin))) / 16)
    by reflexivity.
  split; [|split; [|split; [|split; [|split]]]].
  - rewrite Hlen, Z.mul_comm. apply Z.mod_mul. lia.
  - exact Hb.
  - rewrite Hb, Hlen.
    replace (128 * (Z.of_nat (length bin) / 128 + 1))
      with ((8 * (Z.of_nat (length bin) / 128 + 1)) * 16) by lia.
    rewrite Z.div_mul by lia. lia.
  - reflexivity.
  - rewrite <- compute_crc16_is_modbus. reflexivity.
  - eexists. apply prepare_firmware_data.
Qed.

(** ** The update registry *)

Section Registry.

Import Py OTAFirmwareManager.

Lemma load_firmware_phases self ty ve bin :
  let self' := (load_firmware self ty ve bin).1 in
  requested_nodes self' = requested_nodes self
  /\ unstarted_nodes self' = unstarted_nodes self
  /\ started_nodes self' = started_nodes self.
Proof. destruct bin as [[|b bin]|]; cbn; auto. Qed.

Lemma delete_firmware_phases self ty ve :
  let self' := delete_firmware self ty ve in
  requested_nodes self' = requested_nodes self
  /\ unstarted_nodes self' = unstarted_nodes self
  /\ started_nodes self' = started_nodes self.
Proof. unfold delete_firmware. destruct (_ !! _); cbn; auto. Qed.

Lemma step_at_most_one self c node_id :
  at_most_one_phase self node_id -> at_most_one_phase (step self c) node_id.
Proof.
  intros H.
  destruct c as [ty ve bin|ty ve|n ty ve|n p|n p]; cbn [step].
  - unfold at_most_one_phase.
    destruct (load_firmware_phases self ty ve bin) as (-> & -> & ->). exact H.
  - unfold at_most_one_phase.
    destruct (delete_firmware_phases self ty ve) as (-> & -> & ->). exact H.
  - unfold request_update.
    destruct (firmware_store self !! (ty, ve)); cbn [fst]; [|exact H].
    unfold at_most_one_phase in *; cbn.
    destruct (decide (n = node_id)) as [->|Hne].
    + right; right. now rewrite !lookup_delete_eq.
    + now rewrite lookup_insert_ne, !lookup_delete_ne.
  - unfold handle_firmware_config_request.
    destruct (fw_hex_to_int p 5); [|exact H].
    destruct (or_get _ _) as [[ty ve]|] eqn:Hget; [|exact H].
    destruct (firmware_store self !! (ty, ve)); [|exact H].
    assert (Hs : at_most_one_phase
        {| firmware_store := firmware_store self;
           requested_nodes := delete n (requested_nodes self);
           unstarted_nodes := <[n:=(ty, ve)]> (unstarted_nodes self);
           started_nodes := started_nodes self |} node_id).
    { unfold at_most_one_phase in *; cbn.
      destruct (decide (n = node_id)) as [->|Hne].
      - rewrite lookup_delete_eq. right; left. split; [reflexivity|].
        unfold or_get in Hget.
        destruct (requested_nodes self !! node_id) eqn:Hr;
          destruct (unstarted_nodes self !! node_id) eqn:Hu;
          try discriminate; destruct H as [[? ?]|[[? ?]|[? ?]]]; congruence.
      - now rewrite lookup_insert_ne, !lookup_delete_ne. }
    destruct (fw_int_to_hex _); exact Hs.
  - unfold handle_firmware_request.
    destruct (fw_hex_to_int p 3) as [[|ty [|ve [|b [|? ?]]]]|]; try exact H.
    destruct (or_get _ _) as [?|] eqn:Hget; [|exact H].
    destruct (firmware_store self !! (ty, ve)); [|exact H].
    assert (Hs : at_most_one_phase
        {| firmware_store := firmware_store self;
           requested_nodes := requested_nodes self;
           unstarted_nodes := delete n (unstarted_nodes self);
           started_nodes := <[n:=(ty, ve)]> (started_nodes self) |} node_id).
    { unfold at_most_one_phase in *; cbn.
      destruct (decide (n = node_id)) as [->|Hne].
      - rewrite lookup_delete_eq. left. split; [|reflexivity].
        unfold or_get in Hget.
        destruct (unstarted_nodes self !! node_id) eqn:Hu;
          destruct (started_nodes self !! node_id) eqn:Hst;
          try discriminate; destruct H as [[? ?]|[[? ?]|[? ?]]]; congruence.
      - now rewrite lookup_insert_ne, !lookup_delete_ne. }
    destruct (fw_int_to_hex _); exact Hs.
Qed.

End Registry.

Section Transfer.

Import Py OTAFirmwareManager.

(** C6. In every state reached from the initial manager by any sequence
    of calls (loading and deleting firmware, request-update,
    config-request, block-request), every node has an entry in at most
    one of the dictionaries requested, unstarted and started. *)
Theorem one_phase_per_node (cs : list call) (node_id : Z) :
  at_most_one_phase (run init cs) node_id.
Proof.
  unfold run.
  assert (H0 : at_most_one_phase init node_id).
  { left. split; apply lookup_empty. }
  revert H0. generalize init.
  induction cs as [|c cs IH]; intros self H; cbn; [exact H|].
  apply IH. now apply step_at_most_one.
Qed.

(** C10. [delete_firmware] removes at most the catalog entry of the given
    id; the three phase dictionaries, hence every node's phase and stored
    target, are left exactly as they were. *)
Theorem delete_firmware_frame (self : OTAFirmwareManager.t) (fw_type fw_ver : Z) :
  let self' := delete_firmware self fw_type fw_ver in
  firmware_store self' = delete (fw_type, fw_ver) (firmware_store self)
  /\ requested_nodes self' = requested_nodes self
  /\ unstarted_nodes self' = unstarted_nodes self
  /\ started_nodes self' = started_nodes self
  /\ forall node_id, get_node_status self' node_id = get_node_status self node_id.
Proof.
  cbv zeta.
  destruct (delete_firmware_phases self fw_type fw_ver) as (Hr & Hu & Hs).
  split; [|split; [|split; [|split]]]; try assumption.
  - unfold delete_firmware.
    destruct (firmware_store self !! (fw_type, fw_ver)) eqn:E; [reflexivity|].
    symmetry. now apply delete_id.
  - intros n. unfold get_node_status. now rewrite Hr, Hu, Hs.
Qed.

(** C9. For a node that is unstarted or started, a block request whose
    payload decodes to [(fw_type, fw_ver, block)] with that id in the
    catalog is served from the image of the id the node declared, whatever
    target the registry holds for the node: the response is the three
    words followed by the hex of [data[block*16 : block*16+16]], and the
    node is then started with the declared id. *)
Theorem block_request_serves_declared_id
    (self : OTAFirmwareManager.t) (node_id : Z) (payload : string)
    (fw_type fw_ver block : Z) (fw : fware) :
  is_Some (unstarted_nodes self !! node_id)
    \/ is_Some (started_nodes self !! node_id) ->
  fw_hex_to_int payload 3 = Some [fw_type; fw_ver; block] ->
  firmware_store self !! (fw_type, fw_ver) = Some fw ->
  exists self' header,
    handle_firmware_request self node_id payload =
      (self', Ret (Some (header +:+
         Binascii.hexlify (slice (data fw) (block * 16) (block * 16 + 16)))))
    /\ fw_int_to_hex [fw_type; fw_ver; block] = Some header
    /\ fw_hex_to_int header 3 = Some [fw_type; fw_ver; block]
    /\ started_nodes self' !! node_id = Some (fw_type, fw_ver)
    /\ unstarted_nodes self' !! node_id = None
    /\ requested_nodes self' = requested_nodes self
    /\ firmware_store self' = firmware_store self.
Proof.
  intros Hphase Hdec Hfw.
  destruct (fw_int_to_hex_decoded _ _ _ Hdec) as [header Hh].
  unfold handle_firmware_request. rewrite Hdec.
  assert (Hget : is_Some (or_get (unstarted_nodes self !! node_id)
                                 (started_nodes self !! node_id))).
  { unfold or_get. destruct (unstarted_nodes self !! node_id); [eauto|].
    destruct Hphase as [[? ?]|?]; [discriminate|assumption]. }
  destruct Hget as [fw_id ->]. rewrite Hfw, Hh.
  eexists _, header. split; [reflexivity|]. cbn.
  split; [reflexivity|]. split; [exact (fw_hex_to_int_to_hex _ _ Hh)|].
  rewrite lookup_insert_eq, lookup_delete_eq. auto.
Qed.

(** C5, as the code has it. For a firmware id in the catalog,
    [request_update] succeeds and leaves the node requested; a config
    request whose payload decodes as five 16-bit words then moves the node
    to unstarted, with the same target, and out of requested. *)
Theorem config_request_moves_to_unstarted
    (self : OTAFirmwareManager.t) (node_id fw_type fw_ver : Z)
    (payload : string) (ws : list Z) :
  is_Some (firmware_store self !! (fw_type, fw_ver)) ->
  fw_hex_to_int payload 5 = Some ws ->
  let r1 := request_update self node_id fw_type fw_ver in
  let r2 := handle_firmware_config_request r1.1 node_id payload in
  r1.2 = true
  /\ get_node_status r1.1 node_id = Some "requested"
  /\ requested_nodes r2.1 !! node_id = None
  /\ unstarted_nodes r2.1 !! node_id = Some (fw_type, fw_ver)
  /\ started_nodes r2.1 !! node_id = None
  /\ get_node_status r2.1 node_id = Some "unstarted".
Proof.
  intros [fw Hfw] Hdec. cbv zeta.
  unfold request_update. rewrite Hfw. cbn [fst snd].
  split; [reflexivity|]. split.
  { unfold get_node_status; cbn. rewrite lookup_insert_eq.
    now rewrite bool_decide_eq_true_2 by eauto. }
  unfold handle_firmware_config_request. rewrite Hdec.
  cbn [requested_nodes unstarted_nodes firmware_store].
  rewrite lookup_insert_eq. cbn [or_get]. rewrite Hfw.
  assert (Hst : forall r : result (option string),
    let s := ({| firmware_store := firmware_store self;
        requested_nodes := delete node_id (<[node_id:=(fw_type, fw_ver)]> (requested_nodes self));
        unstarted_nodes := <[node_id:=(fw_type, fw_ver)]> (delete node_id (unstarted_nodes self));
        started_nodes := delete node_id (started_nodes self) |}, r).1 in
    requested_nodes s !! node_id = None
    /\ unstarted_nodes s !! node_id = Some (fw_type, fw_ver)
    /\ started_nodes s !! node_id = None
    /\ get_node_status s node_id = Some "unstarted").
  { intros r. cbn. unfold get_node_status; cbn.
    rewrite !lookup_delete_eq, lookup_insert_eq.
    rewrite bool_decide_eq_false_2 by (intros [? ?]; discriminate).
    rewrite bool_decide_eq_true_2 by eauto. auto. }
  destruct (fw_int_to_hex _); apply Hst.
Qed.

(** C3, as the code has it. When the pending target of a node's config
    request is not in the catalog, and likewise when the id declared in a
    block request is not in the catalog, whatever phase the node is in
    and whatever its stored target, the handler returns no response and
    leaves the manager, and so the node's phase, unchanged. *)
Theorem missing_firmware_no_response_no_change
    (self : OTAFirmwareManager.t) (node_id : Z) :
  (forall (config_payload : string) (fw_type fw_ver : Z),
     or_get (requested_nodes self !! node_id) (unstarted_nodes self !! node_id)
       = Some (fw_type, fw_ver) ->
     firmware_store self !! (fw_type, fw_ver) = None ->
     handle_firmware_config_request self node_id config_payload
       = (self, Ret None))
  /\ (forall (block_payload : string) (req_fw_type req_fw_ver req_block : Z),
     fw_hex_to_int block_payload 3
       = Some [req_fw_type; req_fw_ver; req_block] ->
     firmware_store self !! (req_fw_type, req_fw_ver) = None ->
     handle_firmware_request self node_id block_payload = (self, Ret None)).
Proof.
  split.
  - intros config_payload fw_type fw_ver Hget Hfw.
    unfold handle_firmware_config_request.
    destruct (fw_hex_to_int config_payload 5); [|reflexivity].
    now rewrite Hget, Hfw.
  - intros block_payload req_fw_type req_fw_ver req_block Hdec Hfw.
    unfold handle_firmware_request. rewrite Hdec.
    destruct (or_get (unstarted_nodes self !! node_id) _); [|reflexivity].
    now rewrite Hfw.
Qed.

(** C2, as the code has it. A 320-byte image is padded to 384 bytes, so
    after loading it as firmware (3,2) and a successful request-update for
    node 7 the catalog entry reports 24 blocks, and the response to a
    config request of node 7 (with a payload of five words) decodes as the
    four words (3, 2, 24, crc), crc being the stored CRC16 of the padded
    image. *)
Theorem scenario_A_padded_image
    (self : OTAFirmwareManager.t) (bin : list byte) (payload : string)
    (ws : list Z) :
  length bin = 320%nat ->
  fw_hex_to_int payload 5 = Some ws ->
  let r1 := load_firmware self 3 2 (Some bin) in
  let r2 := request_update r1.1 7 3 2 in
  let r3 := handle_firmware_config_request r2.1 7 payload in
  r1.2 = true /\ r2.2 = true
  /\ exists fw response,
       firmware_store r2.1 !! (3, 2) = Some fw
       /\ blocks fw = 24
       /\ length (data fw) = 384%nat
       /\ crc fw = compute_crc16 (data fw)
       /\ r3.2 = Ret (Some response)
       /\ fw_hex_to_int response 4 = Some [3; 2; 24; crc fw]
       /\ get_node_status r3.1 7 = Some "unstarted".
Proof.
  intros Hlen Hdec. cbv zeta.
  destruct bin as [|b bin]; [discriminate|].
  remember (b :: bin) as img eqn:Himg.
  assert (Hload : load_firmware self 3 2 (Some img) =
    ({| firmware_store := <[(3, 2) := prepare_firmware img]> (firmware_store self);
        requested_nodes := requested_nodes self;
        unstarted_nodes := unstarted_nodes self;
        started_nodes := started_nodes self |}, true)).
  { subst img. reflexivity. }
  rewrite Hload. cbn [fst snd]. split; [reflexivity|].
  set (fw := prepare_firmware img).
  pose proof (prepare_firmware_length img) as Hl. fold fw in Hl.
  rewrite Hlen in Hl. change (128 * (Z.of_nat 320 / 128 + 1)) with 384 in Hl.
  assert (Hblocks : blocks fw = 24).
  { change (blocks fw) with (Z.of_nat (length (data fw)) / 16).
    rewrite Hl. reflexivity. }
  assert (Hcrc : crc fw = compute_crc16 (data fw)) by reflexivity.
  pose proof (compute_crc16_uint16 (data fw)) as Hrange.
  unfold request_update; cbn [firmware_store].
  rewrite lookup_insert_eq. cbn [fst snd]. split; [reflexivity|].
  exists fw.
  destruct (pack_uint16 [3; 2; 24; crc fw]) as [bs Hpack].
  { repeat constructor. rewrite Hcrc. apply is_uint16_spec. lia. }
  assert (Hhex : fw_int_to_hex [3; 2; blocks fw; crc fw]
                 = Some (Binascii.hexlify bs)).
  { unfold fw_int_to_hex. now rewrite Hblocks, Hpack. }
  exists (Binascii.hexlify bs).
  unfold handle_firmware_config_request. rewrite Hdec.
  cbn [requested_nodes unstarted_nodes firmware_store].
  rewrite !lookup_insert_eq. cbn [or_get]. rewrite lookup_insert_eq, Hhex.
  cbn [fst snd].
  split; [reflexivity|]. split; [exact Hblocks|]. split; [lia|].
  split; [exact Hcrc|]. split; [reflexivity|]. split.
  - rewrite Hblocks in Hhex. exact (fw_hex_to_int_to_hex _ _ Hhex).
  - unfold get_node_status; cbn. rewrite lookup_delete_eq, lookup_insert_eq.
    rewrite bool_decide_eq_false_2 by (intros [? ?]; discriminate).
    now rewrite bool_decide_eq_true_2 by eauto.
Qed.

End Transfer.

(** ** The scenarios on concrete inputs *)

Module Scenarios.

Import Py OTAFirmwareManager Sample.

Lemma scenario_A_padded_image_witness :
  exists fw response,
    firmware_store scheduled !! (3, 2) = Some fw
    /\ blocks fw = 24
    /\ (handle_firmware_config_request scheduled 7 config_payload).2
       = Ret (Some response)
    /\ fw_hex_to_int response 4 = Some [3; 2; 24; crc fw].
Proof.
  destruct (scenario_A_padded_image init image_320 config_payload
              [1; 1; 0; 0; 65535])
    as (_ & _ & fw & response & H1 & H2 & _ & _ & H5 & H6 & _).
  - reflexivity.
  - vm_compute. reflexivity.
  - exists fw, response. auto.
Defined.

(** C2, as stated, fails: with a 320-byte image the catalog reports 24
    blocks, not 20, and the config response carries 24 as its third
    word. *)
Lemma scenario_A_reports_24_not_20 :
  length image_320 = 320%nat
  /\ (request_update (load_firmware init 3 2 (Some image_320)).1 7 3 2).2 = true
  /\ blocks <$> (firmware_store scheduled !! (3, 2)) = Some 24
  /\ blocks <$> (firmware_store scheduled !! (3, 2)) <> Some 20
  /\ exists response,
       (handle_firmware_config_request scheduled 7 config_payload).2
         = Ret (Some response)
       /\ fw_hex_to_int response 4 = Some [3; 2; 24; 2427].
Proof.
  split; [reflexivity|]. split; [reflexivity|].
  split; [vm_compute; reflexivity|]. split; [vm_compute; discriminate|].
  exists "0300020018007b09". split; vm_compute; reflexivity.
Qed.

(** A requested node whose target was deleted sends a config request; an
    unstarted node whose target was deleted asks for a block of it; an
    unstarted node whose target (3,2) is loaded, and a started node, ask
    for a block of firmware (5,5), which was never loaded. *)
Lemma missing_firmware_witness :
  handle_firmware_config_request scheduled_then_deleted 7 config_payload
    = (scheduled_then_deleted, Ret None)
  /\ handle_firmware_request unstarted_then_deleted 7 "030002000000"
    = (unstarted_then_deleted, Ret None)
  /\ (get_node_status unstarted_3_2 7 = Some "unstarted"
      /\ is_Some (firmware_store unstarted_3_2 !! (3, 2))
      /\ handle_firmware_request unstarted_3_2 7 "050005000000"
         = (unstarted_3_2, Ret None))
  /\ (get_node_status started_9_9 7 = Some "started"
      /\ handle_firmware_request started_9_9 7 "050005000000"
         = (started_9_9, Ret None)).
Proof.
  split; [|split; [|split]].
  - destruct (missing_firmware_no_response_no_change scheduled_then_deleted 7)
      as [H _].
    apply (H config_payload 3 2); vm_compute; reflexivity.
  - destruct (missing_firmware_no_response_no_change unstarted_then_deleted 7)
      as [_ H].
    apply (H "030002000000" 3 2 0); vm_compute; reflexivity.
  - split; [vm_compute; reflexivity|].
    split; [vm_compute; eexists; reflexivity|].
    destruct (missing_firmware_no_response_no_change unstarted_3_2 7)
      as [_ H].
    apply (H "050005000000" 5 5 0); vm_compute; reflexivity.
  - split; [vm_compute; reflexivity|].
    destruct (missing_firmware_no_response_no_change started_9_9 7)
      as [_ H].
    apply (H "050005000000" 5 5 0); vm_compute; reflexivity.
Defined.

(** C3, as stated, fails: with the target firmware gone from the catalog,
    a config request leaves node 7 requested (it does not become
    unstarted), and a block request leaves node 7 unstarted (it does not
    become started). *)
Lemma missing_firmware_state_does_not_advance :
  (firmware_store scheduled_then_deleted !! (3, 2) = None
   /\ get_node_status scheduled_then_deleted 7 = Some "requested"
   /\ (handle_firmware_config_request scheduled_then_deleted 7 config_payload).2
      = Ret None
   /\ get_node_status
        (handle_firmware_config_request scheduled_then_deleted 7 config_payload).1 7
      = Some "requested")
  /\ (firmware_store unstarted_then_deleted !! (3, 2) = None
      /\ get_node_status unstarted_then_deleted 7 = Some "unstarted"
      /\ fw_hex_to_int "030002000000" 3 = Some [3; 2; 0]
      /\ (handle_firmware_request unstarted_then_deleted 7 "030002000000").2
         = Ret None
      /\ get_node_status
           (handle_firmware_request unstarted_then_deleted 7 "030002000000").1 7
         = Some "unstarted").
Proof. vm_compute. repeat split; reflexivity. Qed.

Lemma config_request_moves_to_unstarted_witness :
  let r1 := request_update scheduled 7 3 2 in
  let r2 := handle_firmware_config_request r1.1 7 config_payload in
  r1.2 = true
  /\ get_node_status r1.1 7 = Some "requested"
  /\ requested_nodes r2.1 !! 7 = None
  /\ unstarted_nodes r2.1 !! 7 = Some (3, 2)
  /\ started_nodes r2.1 !! 7 = None
  /\ get_node_status r2.1 7 = Some "unstarted".
Proof.
  apply (config_request_moves_to_unstarted scheduled 7 3 2 config_payload
           [1; 1; 0; 0; 65535]).
  - vm_compute. eexists. reflexivity.
  - vm_compute. reflexivity.
Defined.

(** C5, as stated, fails: a config request whose payload is not the hex
    of five words (here the empty payload) is ignored, and node 7 stays
    requested. *)
Lemma config_request_bad_payload_stays_requested :
  is_Some (firmware_store (load_firmware init 3 2 (Some image_320)).1 !! (3, 2))
  /\ (request_update (load_firmware init 3 2 (Some image_320)).1 7 3 2).2 = true
  /\ get_node_status scheduled 7 = Some "requested"
  /\ get_node_status (handle_firmware_config_request scheduled 7 EmptyString).1 7
     = Some "requested"
  /\ unstarted_nodes (handle_firmware_config_request scheduled 7 EmptyString).1 !! 7 = None.
Proof.
  split; [vm_compute; eexists; reflexivity|].
  vm_compute. repeat split; reflexivity.
Qed.

(** Node 7 is unstarted with target (3,2) and asks for block 1 of
    firmware (9,9): it is served from the image of (9,9). *)
Lemma block_request_serves_declared_id_witness :
  unstarted_nodes unstarted_3_2 !! 7 = Some (3, 2)
  /\ exists self' header,
    handle_firmware_request unstarted_3_2 7 "090009000100" =
      (self', Ret (Some (header +:+
         Binascii.hexlify (slice (data (prepare_firmware image_200)) (1 * 16) (1 * 16 + 16)))))
    /\ fw_int_to_hex [9; 9; 1] = Some header
    /\ fw_hex_to_int header 3 = Some [9; 9; 1]
    /\ started_nodes self' !! 7 = Some (9, 9)
    /\ unstarted_nodes self' !! 7 = None
    /\ requested_nodes self' = requested_nodes unstarted_3_2
    /\ firmware_store self' = firmware_store unstarted_3_2.
Proof.
  split; [vm_compute; reflexivity|].
  apply (block_request_serves_declared_id unstarted_3_2 7 "090009000100"
           9 9 1 (prepare_firmware image_200)).
  - left. vm_compute. eexists. reflexivity.
  - vm_compute. reflexivity.
  - vm_compute. reflexivity.
Defined.

End Scenarios.

(** ** Decimal numbers, stripping and splitting *)

Section Strings.

Import Py.

Lemma every_impl (P Q : ascii -> bool) (s : string) :
  (forall c, P c = true -> Q c = true) ->
  every P s = true -> every Q s = true.
Proof.
  intros HPQ. induction s as [|c r IH]; [reflexivity|]. cbn.
  rewrite !andb_true_iff. intros [Hc Hr]. split; [now apply HPQ|now apply IH].
Qed.

Lemma digit_char_spec (d : Z) :
  0 <= d <= 9 ->
  isdigit (digit_char d) = true /\ digit_value (digit_char d) = d.
Proof.
  intros Hd.
  assert (Hcases : d = 0 \/ d = 1 \/ d = 2 \/ d = 3 \/ d = 4 \/ d = 5
                   \/ d = 6 \/ d = 7 \/ d = 8 \/ d = 9) by lia.
  repeat (destruct Hcases as [->|Hcases]; [split; reflexivity|]).
  subst d. split; reflexivity.
Qed.

Lemma isdigit_not_special (c : ascii) :
  isdigit c = true ->
  isspace c = false /\ Ascii.eqb c ";" = false
  /\ Ascii.eqb c "+" = false /\ Ascii.eqb c "-" = false.
Proof.
  destruct c as [[] [] [] [] [] [] [] []]; cbv; intros H;
    try discriminate H; repeat split.
Qed.

Lemma str_digits_every (f : nat) (n : Z) (rest : string) :
  0 <= n -> every isdigit rest = true ->
  every isdigit (str_digits f n rest) = true.
Proof.
  revert n rest. induction f as [|f IH]; intros n rest Hn Hrest; [exact Hrest|].
  cbn [str_digits]. destruct (Z.ltb_spec n 10) as [Hlt|Hge].
  - cbn [every]. rewrite Hrest.
    now destruct (digit_char_spec n ltac:(lia)) as [-> _].
  - apply IH; [apply Z.div_pos; lia|]. cbn [every]. rewrite Hrest.
    pose proof (Z.mod_pos_bound n 10 ltac:(lia)).
    now destruct (digit_char_spec (n mod 10) ltac:(lia)) as [-> _].
Qed.

Lemma str_digits_cons (f : nat) (n : Z) (c : ascii) (r : string) :
  exists c' r', str_digits f n (String c r) = String c' r'.
Proof.
  revert n c r. induction f as [|f IH]; intros n c r; cbn [str_digits]; [eauto|].
  destruct (n <? 10); [eauto|apply IH].
Qed.

Lemma int_digits_str_digits (f : nat) (n : Z) (rest : string) (prev : bool) :
  0 <= n < 10 ^ Z.of_nat (S f) ->
  int_digits prev 0 (str_digits (S f) n rest) = int_digits true n rest.
Proof.
  revert n rest prev. induction f as [|f IH]; intros n rest prev Hn.
  - cbn [str_digits]. change (10 ^ Z.of_nat 1) with 10 in Hn.
    destruct (Z.ltb_spec n 10); [|lia].
    cbn [int_digits]. destruct (digit_char_spec n ltac:(lia)) as [-> ->].
    f_equal.
  - remember (S f) as f' eqn:Hf'. cbn [str_digits].
    destruct (Z.ltb_spec n 10) as [Hlt|Hge].
    + cbn [int_digits]. destruct (digit_char_spec n ltac:(lia)) as [-> ->].
      f_equal.
    + subst f'. rewrite IH.
      * cbn [int_digits].
        pose proof (Z.mod_pos_bound n 10 ltac:(lia)).
        destruct (digit_char_spec (n mod 10) ltac:(lia)) as [-> ->].
        f_equal. pose proof (Z.div_mod n 10 ltac:(lia)). lia.
      * split; [apply Z.div_pos; lia|].
        apply Z.div_lt_upper_bound; [lia|].
        replace (Z.of_nat (S (S f))) with (Z.succ (Z.of_nat (S f))) in Hn by lia.
        rewrite Z.pow_succ_r in Hn by lia. lia.
Qed.

(** The fuel of [str_nonneg] is enough for all the digits. *)
Lemma str_nonneg_fuel (n : Z) :
  0 <= n -> n < 10 ^ Z.of_nat (S (Z.to_nat (Z.log2 n))).
Proof.
  intros Hn. pose proof (Z.log2_nonneg n) as Hl.
  replace (Z.of_nat (S (Z.to_nat (Z.log2 n)))) with (Z.succ (Z.log2 n)) by lia.
  destruct (Z.eq_dec n 0) as [->|Hne]; [cbn; lia|].
  pose proof (Z.log2_spec n ltac:(lia)) as [_ Hlt].
  eapply Z.lt_le_trans; [exact Hlt|].
  apply Z.pow_le_mono_l. lia.
Qed.

Lemma str_nonneg_shape (n : Z) :
  0 <= n ->
  exists c r, str_nonneg n = String c r
              /\ isdigit c = true /\ every isdigit r = true.
Proof.
  intros Hn. unfold str_nonneg.
  pose proof (str_digits_every (S (Z.to_nat (Z.log2 n))) n EmptyString Hn eq_refl) as He.
  assert (Hc : exists c r,
             str_digits (S (Z.to_nat (Z.log2 n))) n EmptyString = String c r).
  { cbn [str_digits]. destruct (n <? 10); [eauto|apply str_digits_cons]. }
  destruct Hc as (c & r & Hcr). rewrite Hcr in He |- *. cbn [every] in He.
  apply andb_true_iff in He. exists c, r. tauto.
Qed.

Lemma int_digits_str_nonneg (n : Z) (prev : bool) :
  0 <= n -> int_digits prev 0 (str_nonneg n) = Some n.
Proof.
  intros Hn. unfold str_nonneg.
  rewrite int_digits_str_digits by (split; [exact Hn|now apply str_nonneg_fuel]).
  reflexivity.
Qed.

Lemma lstrip_cons (c : ascii) (r : string) :
  isspace c = false -> lstrip (String c r) = String c r.
Proof. intros H. cbn. now rewrite H. Qed.

Lemma rstrip_nospace (s : string) :
  every (fun c => negb (isspace c)) s = true -> rstrip s = s.
Proof.
  induction s as [|c r IH]; [reflexivity|]. cbn.
  rewrite andb_true_iff, negb_true_iff. intros [Hc Hr].
  rewrite (IH Hr), Hc. now destruct r.
Qed.

Lemma rstrip_app_fixed (s t : string) :
  rstrip t = t -> t <> EmptyString ->
  rstrip (s +:+ t) = s +:+ t /\ s +:+ t <> EmptyString.
Proof.
  intros Ht Hne. induction s as [|c r [IH1 IH2]]; [now split|].
  split; [|discriminate].
  change (String c r +:+ t) with (String c (r +:+ t)).
  cbn [rstrip]. rewrite IH1. destruct (r +:+ t) eqn:E; [contradiction|reflexivity].
Qed.

Lemma rstrip_sep (sep : ascii) (t : string) :
  isspace sep = false -> rstrip t = t ->
  rstrip (String sep t) = String sep t /\ String sep t <> EmptyString.
Proof.
  intros Hs Ht. split; [|discriminate]. cbn. rewrite Ht, Hs. now destruct t.
Qed.

Lemma split_no_sep (sep : ascii) (s : string) :
  contains sep s = false -> split sep s = [s].
Proof.
  induction s as [|c r IH]; [reflexivity|]. cbn [split contains].
  rewrite orb_false_iff. intros [Hc Hr]. now rewrite Hc, (IH Hr).
Qed.

Lemma split_app_sep (sep : ascii) (s rest : string) :
  contains sep s = false ->
  split sep (s +:+ String sep rest) = s :: split sep rest.
Proof.
  induction s as [|c r IH].
  - intros _. change (EmptyString +:+ String sep rest) with (String sep rest).
    cbn [split]. now rewrite Ascii.eqb_refl.
  - change (String c r +:+ String sep rest)
      with (String c (r +:+ String sep rest)).
    cbn [split contains]. rewrite orb_false_iff. intros [Hc Hr].
    now rewrite Hc, (IH Hr).
Qed.

(** What [str] prints: an optional minus sign and digits. *)
Lemma str_shape (n : Z) :
  exists c r, str n = String c r
    /\ isspace c = false
    /\ every (fun c => negb (isspace c)) (str n) = true
    /\ contains ";" (str n) = false.
Proof.
  assert (Hd : forall r, every isdigit r = true ->
             every (fun c => negb (isspace c)) r = true
             /\ contains ";" r = false).
  { intros r Hr. split.
    - revert Hr. apply every_impl. intros c Hc.
      now destruct (isdigit_not_special c Hc) as (-> & _).
    - induction r as [|c r IH]; [reflexivity|]. cbn in *.
      apply andb_true_iff in Hr as [Hc Hr].
      destruct (isdigit_not_special c Hc) as (_ & -> & _). now apply IH. }
  unfold str. destruct (Z.ltb_spec n 0) as [Hneg|Hpos].
  - destruct (str_nonneg_shape (- n) ltac:(lia)) as (c & r & -> & Hc & Hr).
    destruct (Hd (String c r)) as [H1 H2]; [cbn; now rewrite Hc, Hr|].
    exists "-"%char, (String c r). split; [reflexivity|].
    split; [reflexivity|]. split.
    + change (every _ (String "-" (String c r)))
        with (every (fun c => negb (isspace c)) (String c r)). exact H1.
    + change (contains ";" (String "-" (String c r)))
        with (contains ";" (String c r)). exact H2.
  - destruct (str_nonneg_shape n Hpos) as (c & r & -> & Hc & Hr).
    destruct (Hd (String c r)) as [H1 H2]; [cbn; now rewrite Hc, Hr|].
    exists c, r. split; [reflexivity|].
    now destruct (isdigit_not_special c Hc) as (-> & _).
Qed.

Lemma int_space_isspace (c : ascii) : isspace c = false -> int_space c = false.
Proof.
  destruct c as [[] [] [] [] [] [] [] []]; cbv; intros H;
    try discriminate H; reflexivity.
Qed.

Lemma int_rstrip_nospace (s : string) :
  every (fun c => negb (isspace c)) s = true -> int_rstrip s = s.
Proof.
  induction s as [|c r IH]; [reflexivity|]. cbn.
  rewrite andb_true_iff, negb_true_iff. intros [Hc Hr].
  rewrite (IH Hr), (int_space_isspace c Hc). now destruct r.
Qed.

(** [int(str(n)) == n]. *)
Lemma int_str (n : Z) : int (str n) = Some n.
Proof.
  unfold int.
  destruct (str_shape n) as (c & r & Hcr & Hc & Hns & _).
  assert (Hl : int_lstrip (String c r) = String c r).
  { cbn. now rewrite (int_space_isspace c Hc). }
  rewrite Hcr, Hl, <- Hcr, (int_rstrip_nospace _ Hns).
  unfold str. destruct (Z.ltb_spec n 0) as [Hneg|Hpos].
  - cbn [Ascii.eqb Bool.eqb]. cbv iota.
    rewrite int_digits_str_nonneg by lia. cbn. f_equal. lia.
  - destruct (str_nonneg_shape n Hpos) as (d & r' & Hd & Hdig & _).
    rewrite Hd.
    destruct (isdigit_not_special d Hdig) as (_ & _ & -> & ->).
    rewrite <- Hd. now apply int_digits_str_nonneg.
Qed.

End Strings.

(** ** Line processing *)

Section Lines.

Import Py Gateway.

Lemma process_fresh (st : state) (now : Q) (raw : string) :
  strip raw <> EmptyString -> fresh st now (strip raw) ->
  process_gateway_message st now raw =
    ({| last_message := strip raw; last_time := now |},
     decode_fields (strip raw)).
Proof.
  intros Hne Hfresh. unfold process_gateway_message.
  apply String.eqb_neq in Hne. rewrite Hne.
  assert (Hnew : negb (String.eqb (last_message st) (strip raw))
                 || negb (Qle_bool (now - last_time st) 1) = true).
  { apply orb_true_iff. destruct Hfresh as [Hm|Ht].
    - left. apply negb_true_iff. now apply String.eqb_neq.
    - right. apply negb_true_iff.
      destruct (Qle_bool (now - last_time st) 1) eqn:E; [|reflexivity].
      apply Qle_bool_iff in E. exfalso. exact (Qlt_not_le _ _ Ht E). }
  now rewrite Hnew.
Qed.

Lemma process_repeat (st : state) (now : Q) (raw : string) :
  strip raw <> EmptyString -> last_message st = strip raw ->
  (now - last_time st <= 1)%Q ->
  process_gateway_message st now raw =
    ({| last_message := strip raw; last_time := now |}, Duplicate).
Proof.
  intros Hne Hm Ht. unfold process_gateway_message.
  apply String.eqb_neq in Hne. rewrite Hne, Hm, String.eqb_refl.
  apply Qle_bool_iff in Ht. now rewrite Ht.
Qed.

Lemma process_remembers (st : state) (now : Q) (raw : string) :
  strip raw <> EmptyString ->
  (process_gateway_message st now raw).1 =
    {| last_message := strip raw; last_time := now |}.
Proof.
  intros Hne. unfold process_gateway_message.
  apply String.eqb_neq in Hne. rewrite Hne.
  now destruct (negb _).
Qed.

(** A line with six or more fields one of whose first five is not an
    integer ends in [sys.exit(1)]. *)
Lemma decode_fields_bad_int (line p0 p1 p2 p3 p4 p5 : string) (rest : list string) :
  split ";" line = p0 :: p1 :: p2 :: p3 :: p4 :: p5 :: rest ->
  int p0 = None \/ int p1 = None \/ int p2 = None \/ int p3 = None
    \/ int p4 = None ->
  decode_fields line = SystemExit.
Proof.
  intros Hs H. unfold decode_fields. rewrite Hs.
  destruct (int p0), (int p1), (int p2), (int p3), (int p4);
    try reflexivity; exfalso; intuition discriminate.
Qed.

(** A line with fewer than six fields is reported as invalid. *)
Lemma decode_fields_short (line : string) :
  (length (split ";" line) < 6)%nat -> decode_fields line = InvalidFormat.
Proof.
  unfold decode_fields.
  destruct (split ";" line) as [|? [|? [|? [|? [|? [|? ?]]]]]]; cbn;
    try reflexivity; lia.
Qed.

(** After [SystemExit] nothing more is read. *)
Lemma gateway_listener_exit (downstream : storage) (st st' : state)
    (now : Q) (line : string) (rest : list (Q * string)) :
  process_gateway_message st now line = (st', SystemExit) ->
  gateway_listener downstream st ((now, line) :: rest)
  = (st', [SystemExit], false).
Proof. intros H. cbn [gateway_listener]. now rewrite H. Qed.

(** C1 fails on the code for a line whose first field is not an integer:
    [int] raises, the handler calls [sys.exit(1)], the listener loop ends
    and the well-formed line that follows is never processed, whatever
    the storage layer would have done with it. A line with too few
    fields, by contrast, is reported and the loop goes on (here with a
    storage layer that does not raise). *)
Theorem malformed_integer_line_stops_listener (downstream : storage) :
  let st0 := (initial 0) in
  length (split ";" "a;1;1;0;2;37") = 6%nat
  /\ int "a" = None
  /\ process_gateway_message st0 1 "a;1;1;0;2;37"
     = ({| last_message := "a;1;1;0;2;37"; last_time := 1 |}, SystemExit)
  /\ gateway_listener downstream st0
       [(1%Q, "a;1;1;0;2;37"); (5%Q, "5;1;1;0;2;37")]
     = ({| last_message := "a;1;1;0;2;37"; last_time := 1 |},
        [SystemExit], false)
  /\ gateway_listener (fun _ _ _ _ _ _ _ => true) st0
       [(1%Q, "5;1"); (5%Q, "5;1;1;0;2;37")]
     = ({| last_message := "5;1;1;0;2;37"; last_time := 5 |},
        [InvalidFormat; Decoded 5 1 1 0 2 "37"], true).
Proof. vm_compute. repeat split; reflexivity. Qed.

(** C8. After a non-blank line is processed at time [t1], the same line
    at [t2] is dropped as a duplicate, before its fields are decoded, when
    [t2 - t1 <= 1], and goes on to decoding when [t2 - t1 > 1]; the first
    line itself goes on to decoding when it is fresh. Only the last line
    is remembered: after a different non-blank line [other] in between,
    the line goes on to decoding again, whatever the times. *)
Theorem dedup_within_one_second
    (st : state) (line : string) (t1 t2 : Q) :
  strip line <> EmptyString ->
  let s1 := (process_gateway_message st t1 line).1 in
  ((t2 - t1 <= 1)%Q ->
     (process_gateway_message s1 t2 line).2 = Duplicate)
  /\ ((1 < t2 - t1)%Q ->
     (process_gateway_message s1 t2 line).2 = decode_fields (strip line))
  /\ (fresh st t1 (strip line) ->
     (process_gateway_message st t1 line).2 = decode_fields (strip line))
  /\ (forall (other : string) (t3 : Q),
        strip other <> EmptyString -> strip other <> strip line ->
        let s2 := (process_gateway_message s1 t2 other).1 in
        (process_gateway_message s2 t3 line).2 = decode_fields (strip line)).
Proof.
  intros Hne. cbv zeta. rewrite (process_remembers st t1 line Hne).
  split; [|split; [|split]].
  - intros Ht. now rewrite process_repeat.
  - intros Ht. rewrite process_fresh; [reflexivity|exact Hne|now right].
  - intros Hf. now rewrite process_fresh.
  - intros other t3 Ho Hdiff. rewrite (process_remembers _ t2 other Ho).
    rewrite process_fresh; [reflexivity|exact Hne|now left].
Qed.

(** Scenario D: the line [5;1;1;0;2;37] twice, 0.2 s apart and 2.0 s
    apart, and a different line in between. *)
Lemma dedup_within_one_second_witness :
  let st0 := (initial 0) in
  let line := "5;1;1;0;2;37" in
  let s1 := (process_gateway_message st0 10 line).1 in
  (process_gateway_message st0 10 line).2 = Decoded 5 1 1 0 2 "37"
  /\ (process_gateway_message s1 (102 # 10) line).2 = Duplicate
  /\ (process_gateway_message s1 12 line).2 = Decoded 5 1 1 0 2 "37"
  /\ (process_gateway_message
        (process_gateway_message s1 (101 # 10) "5;2;1;0;2;40").1
        (102 # 10) line).2 = Decoded 5 1 1 0 2 "37".
Proof.
  cbv zeta.
  assert (Hne : strip "5;1;1;0;2;37" <> EmptyString) by (vm_compute; discriminate).
  pose proof (dedup_within_one_second
                (initial 0)
                "5;1;1;0;2;37" 10 (102 # 10) Hne) as (Hdup & _ & Hfirst & Haba).
  pose proof (dedup_within_one_second
                (initial 0)
                "5;1;1;0;2;37" 10 12 Hne) as (_ & Hlate & _ & _).
  pose proof (dedup_within_one_second
                (initial 0)
                "5;1;1;0;2;37" 10 (101 # 10) Hne) as (_ & _ & _ & Haba').
  split; [|split; [|split]].
  - apply Hfirst. left. vm_compute. discriminate.
  - apply Hdup. vm_compute. discriminate.
  - apply Hlate. vm_compute. reflexivity.
  - apply (Haba' "5;2;1;0;2;40" (102 # 10)); vm_compute; discriminate.
Defined.

Lemma rstrip_field (s t : string) :
  rstrip t = t ->
  rstrip (s +:+ ";" +:+ t) = s +:+ ";" +:+ t /\ s +:+ ";" +:+ t <> EmptyString.
Proof.
  intros Ht.
  destruct (rstrip_sep ";" t eq_refl Ht) as [H1 H2].
  exact (rstrip_app_fixed s (String ";" t) H1 H2).
Qed.

Lemma strip_format_message (nid cid cmd ack typ : Z) (payload : string) :
  rstrip payload = payload ->
  let line := format_message nid cid cmd ack typ payload in
  strip line = line /\ line <> EmptyString.
Proof.
  intros Hp. cbv zeta. unfold format_message, strip.
  destruct (rstrip_field (str typ) payload Hp) as [H5 _].
  destruct (rstrip_field (str ack) _ H5) as [H4 _].
  destruct (rstrip_field (str cmd) _ H4) as [H3 _].
  destruct (rstrip_field (str cid) _ H3) as [H2 _].
  destruct (rstrip_field (str nid) _ H2) as [H1 Hne].
  split; [|exact Hne].
  destruct (str_shape nid) as (c & r & Hcr & Hc & _).
  rewrite Hcr.
  change (String c r +:+ ?x) with (String c (r +:+ x)).
  rewrite (lstrip_cons c _ Hc).
  change (String c (r +:+ ?x)) with (String c r +:+ x).
  rewrite <- Hcr. exact H1.
Qed.

Lemma decode_fields_format_message (nid cid cmd ack typ : Z) (payload : string) :
  contains ";" payload = false ->
  decode_fields (format_message nid cid cmd ack typ payload)
    = Decoded nid cid cmd ack typ payload.
Proof.
  intros Hp. unfold decode_fields, format_message.
  assert (Hf : forall n rest,
             split ";" (str n +:+ ";" +:+ rest) = str n :: split ";" rest).
  { intros n rest. apply split_app_sep.
    now destruct (str_shape n) as (_ & _ & _ & _ & _ & H). }
  rewrite !Hf, (split_no_sep ";" payload Hp), !int_str. reflexivity.
Qed.

(** C4, as the code has it. A message formatted from five integers and a
    payload that holds no [;] and does not end in white space is decoded,
    when it is not dropped as a repeat, to the same five integers and the
    same payload. *)
Theorem decode_format_roundtrip
    (st : state) (now : Q) (nid cid cmd ack typ : Z) (payload : string) :
  contains ";" payload = false ->
  rstrip payload = payload ->
  let line := format_message nid cid cmd ack typ payload in
  fresh st now line ->
  process_gateway_message st now line =
    ({| last_message := line; last_time := now |},
     Decoded nid cid cmd ack typ payload).
Proof.
  intros Hsep Hp line Hfresh. subst line.
  destruct (strip_format_message nid cid cmd ack typ payload Hp) as [Hs Hne].
  rewrite process_fresh; rewrite Hs; try assumption.
  now rewrite decode_fields_format_message.
Qed.

Lemma decode_format_roundtrip_witness :
  process_gateway_message (initial 0) 1
    (format_message 5 1 1 0 2 "37") =
    ({| last_message := format_message 5 1 1 0 2 "37"; last_time := 1 |},
     Decoded 5 1 1 0 2 "37").
Proof.
  apply (decode_format_roundtrip (initial 0)
           1 5 1 1 0 2 "37").
  - reflexivity.
  - reflexivity.
  - left. vm_compute. discriminate.
Defined.

(** C4, as stated, fails: the line is split at every [;], so a payload
    with an embedded [;] is cut at it; and the line is stripped first, so
    white space at the end of the payload is lost. *)
Lemma embedded_separator_cuts_payload :
  let st0 := (initial 0) in
  format_message 1 2 3 0 4 "a;b" = "1;2;3;0;4;a;b"
  /\ (process_gateway_message st0 1 (format_message 1 2 3 0 4 "a;b")).2
     = Decoded 1 2 3 0 4 "a"
  /\ "a" <> "a;b"
  /\ (process_gateway_message st0 1 (format_message 1 2 3 0 4 "on ")).2
     = Decoded 1 2 3 0 4 "on".
Proof.
  cbv zeta. split; [vm_compute; reflexivity|].
  split; [vm_compute; reflexivity|].
  split; [discriminate|vm_compute; reflexivity].
Qed.

End Lines.

(** * Further properties of the code *)

(** ** Word packing *)

Section WordPacking.

Import Binascii Struct.

Lemma hexlify_length (bs : list byte) :
  String.length (hexlify bs) = (2 * length bs)%nat.
Proof. induction bs as [|b bs IH]; cbn [hexlify String.length length]; lia. Qed.

Lemma unhexlify_length_two (s : string) :
  (forall bs, unhexlify s = Some bs -> String.length s = (2 * length bs)%nat)
  /\ (forall a bs, unhexlify (String a s) = Some bs ->
                   String.length (String a s) = (2 * length bs)%nat).
Proof.
  induction s as [|b r [IH1 IH2]].
  - split; [intros bs H; now inversion H|intros a bs H; discriminate H].
  - split; [exact (IH2 b)|]. intros a bs H. cbn [unhexlify] in H.
    destruct (hex_value a), (hex_value b); try discriminate.
    destruct (unhexlify r) as [bs'|] eqn:E; [|discriminate].
    destruct (Byte.of_N _); [|discriminate]. inversion H; subst.
    cbn [String.length length]. rewrite (IH1 bs' eq_refl). lia.
Qed.

Lemma unhexlify_length (s : string) (bs : list byte) :
  unhexlify s = Some bs -> String.length s = (2 * length bs)%nat.
Proof. apply unhexlify_length_two. Qed.

Lemma pack_H_length (ws : list Z) (bs : list byte) :
  pack_H ws = Some bs -> length bs = (2 * length ws)%nat.
Proof.
  revert bs. induction ws as [|w ws IH]; intros bs H; cbn in H.
  - now inversion H.
  - destruct (is_uint16 w); [|discriminate].
    destruct (pack_H ws) as [bs'|]; [|discriminate]. inversion H; subst.
    cbn [length]. rewrite (IH bs' eq_refl). lia.
Qed.

Lemma unpack_H_length (n : nat) (bs : list byte) (ws : list Z) :
  unpack_H n bs = Some ws -> length bs = (2 * n)%nat.
Proof.
  revert bs ws. induction n as [|n IH]; intros bs ws H.
  - now destruct bs.
  - destruct bs as [|lo [|hi r]]; try discriminate. cbn in H.
    destruct (unpack_H n r) as [ws'|] eqn:E; [|discriminate].
    cbn [length]. rewrite (IH _ _ E). lia.
Qed.

Lemma pack_H_None (ws : list Z) :
  pack_H ws = None <-> Exists (fun w => w < 0 \/ 65535 < w) ws.
Proof.
  induction ws as [|w ws IH]; cbn.
  - split; [discriminate|]. intros H. inversion H.
  - destruct (is_uint16 w) eqn:Hw.
    + apply is_uint16_spec in Hw. destruct (pack_H ws) as [bs|].
      * split; [discriminate|]. intros H. inversion H; subst; [lia|].
        apply IH in H1. discriminate.
      * split; [|reflexivity]. intros _. right. now apply IH.
    + split; [|reflexivity]. intros _. left.
      destruct (Z.lt_ge_cases w 0); [lia|].
      destruct (Z.lt_ge_cases 65535 w); [lia|]. exfalso.
      assert (is_uint16 w = true) by (apply is_uint16_spec; lia). congruence.
Qed.

Lemma fw_int_to_hex_None (ws : list Z) :
  fw_int_to_hex ws = None <-> Exists (fun w => w < 0 \/ 65535 < w) ws.
Proof.
  rewrite <- pack_H_None. unfold fw_int_to_hex.
  destruct (pack_H ws); cbn; split; intros H; try discriminate; reflexivity.
Qed.

(** X1. What [fw_int_to_hex] produces has four hex digits per word, and
    [fw_hex_to_int] reads the same words back from it. *)
Theorem words_to_hex_and_back (ws : list Z) (h : string) :
  fw_int_to_hex ws = Some h ->
  String.length h = (4 * length ws)%nat
  /\ fw_hex_to_int h (length ws) = Some ws.
Proof.
  intros H. split; [|now apply fw_hex_to_int_to_hex].
  unfold fw_int_to_hex in H.
  destruct (pack_H ws) as [bs|] eqn:E; [|discriminate].
  cbn in H. inversion H; subst.
  rewrite hexlify_length, (pack_H_length _ _ E). lia.
Qed.

Lemma words_to_hex_and_back_witness :
  String.length "030002001800" = (4 * 3)%nat
  /\ fw_hex_to_int "030002001800" 3 = Some [3; 2; 24].
Proof.
  apply (words_to_hex_and_back [3; 2; 24] "030002001800").
  vm_compute. reflexivity.
Defined.

(** X2. [fw_int_to_hex] fails (struct.error) exactly when one of the
    numbers is negative or above 65535. *)
Theorem fw_int_to_hex_fails_iff_out_of_range (ws : list Z) :
  fw_int_to_hex ws = None <-> Exists (fun w => w < 0 \/ 65535 < w) ws.
Proof. apply fw_int_to_hex_None. Qed.

(** X3. When [fw_hex_to_int] accepts a payload for [n] words, the payload
    has exactly [4 n] characters, there are [n] words, each between 0 and
    65535, and packing them again gives a payload that unpacks to the same
    words. *)
Theorem fw_hex_to_int_accepts (p : string) (n : nat) (ws : list Z) :
  fw_hex_to_int p n = Some ws ->
  String.length p = (4 * n)%nat
  /\ length ws = n
  /\ Forall (fun w => 0 <= w <= 65535) ws
  /\ exists h, fw_int_to_hex ws = Some h /\ fw_hex_to_int h n = Some ws.
Proof.
  intros H. destruct (fw_hex_to_int_uint16 _ _ _ H) as [Hl Hr].
  destruct (fw_int_to_hex_decoded _ _ _ H) as [h Hh].
  split; [|split; [exact Hl|split; [exact Hr|]]].
  - unfold fw_hex_to_int in H.
    destruct (unhexlify p) as [bs|] eqn:E; [|discriminate].
    rewrite (unhexlify_length _ _ E), (unpack_H_length _ _ _ H). lia.
  - exists h. split; [exact Hh|]. rewrite <- Hl.
    now apply fw_hex_to_int_to_hex.
Qed.

Lemma fw_hex_to_int_accepts_witness :
  String.length "0300020018007B09FFFF" = (4 * 5)%nat
  /\ length [3; 2; 24; 2427; 65535] = 5%nat
  /\ Forall (fun w => 0 <= w <= 65535) [3; 2; 24; 2427; 65535]
  /\ exists h, fw_int_to_hex [3; 2; 24; 2427; 65535] = Some h
               /\ fw_hex_to_int h 5 = Some [3; 2; 24; 2427; 65535].
Proof.
  apply (fw_hex_to_int_accepts "0300020018007B09FFFF" 5 [3; 2; 24; 2427; 65535]).
  vm_compute. reflexivity.
Defined.

End WordPacking.

(** ** The checksum *)

Lemma lxor_low_byte (c : Z) :
  0 <= c -> Z.lxor c (c mod 256) = 256 * (c / 256).
Proof.
  intros Hc. apply Z.bits_inj'. intros n Hn.
  rewrite Z.lxor_spec. change 256 with (2 ^ 8).
  rewrite (Z.mul_comm (2 ^ 8)).
  destruct (Z.lt_ge_cases n 8) as [Hlt|Hge].
  - rewrite Z.mod_pow2_bits_low, xorb_nilpotent by lia.
    now rewrite Z.mul_pow2_bits_low by lia.
  - rewrite Z.mod_pow2_bits_high, xorb_false_r by lia.
    rewrite Z.mul_pow2_bits, Z.div_pow2_bits by lia.
    f_equal. lia.
Qed.

Lemma crc16_shift_even (x : Z) : crc16_shift (2 * x) = x.
Proof.
  unfold crc16_shift. rewrite Z.testbit_even_0.
  rewrite Z.shiftr_div_pow2 by lia. change (2 ^ 1) with 2.
  rewrite Z.mul_comm. apply Z.div_mul. lia.
Qed.

Lemma crc16_byte_low (c : Z) (b : byte) :
  0 <= c -> Z.of_N (Byte.to_N b) = c mod 256 -> crc16_byte c b = c / 256.
Proof.
  intros Hc Hb. unfold crc16_byte. rewrite Hb, lxor_low_byte by exact Hc.
  replace (256 * (c / 256))
    with (2 * (2 * (2 * (2 * (2 * (2 * (2 * (2 * (c / 256)))))))))
    by lia.
  cbn [Nat.iter nat_rect]. now rewrite !crc16_shift_even.
Qed.

(** X4. The checksum fits an unsigned 16-bit word, and it is a checksum
    in the MODBUS sense: the data followed by its checksum, low byte
    first, has checksum 0. *)
Theorem compute_crc16_residue (data : list byte) :
  let c := compute_crc16 data in
  0 <= c <= 65535
  /\ compute_crc16
       (data ++ [Struct.byte_of_Z c; Struct.byte_of_Z (c / 256)])%list = 0.
Proof.
  cbv zeta. pose proof (compute_crc16_uint16 data) as Hc.
  split; [exact Hc|].
  unfold compute_crc16 in *. rewrite fold_left_app. cbn [fold_left].
  set (c := fold_left crc16_byte data 65535) in *.
  rewrite (crc16_byte_low c) by (rewrite ?to_N_byte_of_Z; lia).
  assert (Hq : 0 <= c / 256 < 256).
  { split; [apply Z.div_pos; lia|apply Z.div_lt_upper_bound; lia]. }
  rewrite (crc16_byte_low (c / 256)).
  - apply Z.div_small. lia.
  - lia.
  - rewrite to_N_byte_of_Z. rewrite !Z.mod_small; lia.
Qed.

(** ** Padding and blocks *)

Section Blocks.

Import Py.

Lemma prepare_firmware_whole_blocks (bin : list byte) :
  16 * blocks (prepare_firmware bin)
    = Z.of_nat (length (data (prepare_firmware bin)))
  /\ crc (prepare_firmware bin) = compute_crc16 (data (prepare_firmware bin)).
Proof.
  split; [|reflexivity].
  change (blocks (prepare_firmware bin))
    with (Z.of_nat (length (data (prepare_firmware bin))) / 16).
  rewrite prepare_firmware_length.
  replace (128 * (Z.of_nat (length bin) / 128 + 1))
    with ((8 * (Z.of_nat (length bin) / 128 + 1)) * 16) by lia.
  rewrite Z.div_mul by lia. lia.
Qed.

(** X5. [prepare_firmware] keeps the image, and appends between 1 and 128
    bytes 0xFF: as many as bring the length to the next multiple of 128
    above it. An image whose length is a multiple of 128 already grows by
    a whole page. The block count is [8 * (len / 128 + 1)], so never 0. *)
Theorem prepare_firmware_padding (bin : list byte) :
  let fw := prepare_firmware bin in
  let k := (128 - length bin mod 128)%nat in
  (1 <= k <= 128)%nat
  /\ data fw = (bin ++ replicate k xff)%list
  /\ length (data fw) = (length bin + k)%nat
  /\ ((length bin mod 128 = 0)%nat -> length (data fw) = (length bin + 128)%nat)
  /\ blocks fw = 8 * (Z.of_nat (length bin) / 128 + 1).
Proof.
  cbv zeta.
  pose proof (Nat.mod_upper_bound (length bin) 128 ltac:(lia)) as Hm.
  pose proof (prepare_firmware_data bin) as Hd.
  assert (Hl : length (data (prepare_firmware bin))
               = (length bin + (128 - length bin mod 128))%nat).
  { now rewrite Hd, length_app, length_replicate. }
  split; [lia|]. split; [exact Hd|]. split; [exact Hl|].
  split; [intros H0; rewrite Hl, H0; lia|].
  change (blocks (prepare_firmware bin))
    with (Z.of_nat (length (data (prepare_firmware bin))) / 16).
  rewrite prepare_firmware_length.
  replace (128 * (Z.of_nat (length bin) / 128 + 1))
    with ((8 * (Z.of_nat (length bin) / 128 + 1)) * 16) by lia.
  apply Z.div_mul. lia.
Qed.

Lemma prepare_firmware_padding_witness :
  length (data (prepare_firmware (replicate 256 x00))) = (256 + 128)%nat.
Proof.
  destruct (prepare_firmware_padding (replicate 256 x00))
    as (_ & _ & _ & H & _).
  apply H. reflexivity.
Defined.

Lemma slice_block (l : list byte) (k : nat) :
  slice l (Z.of_nat k * 16) (Z.of_nat k * 16 + 16) = take 16 (drop (16 * k) l).
Proof.
  unfold slice. f_equal; [lia|f_equal; lia].
Qed.

Lemma blocks_concat (whole : list byte) (n k : nat) :
  length (drop (16 * k) whole) = (16 * n)%nat ->
  concat (map (fun b => slice whole (b * 16) (b * 16 + 16))
              (upto (Z.of_nat k) n))
  = drop (16 * k) whole.
Proof.
  revert k. induction n as [|n IH]; intros k Hlen.
  - cbn. symmetry. now apply nil_length_inv.
  - cbn [upto map concat]. rewrite slice_block.
    replace (Z.of_nat k + 1) with (Z.of_nat (S k)) by lia.
    rewrite IH.
    + replace (16 * S k)%nat with (16 * k + 16)%nat by lia.
      rewrite <- drop_drop. apply take_drop.
    + rewrite length_drop in *. lia.
Qed.

(** X6. The image built by [prepare_firmware] is cut into whole blocks:
    the slice served for a block index below [blocks] has exactly 16
    bytes, the slice for an index from [blocks] on is empty, and the
    slices for 0, 1, ..., [blocks - 1] joined in this order are the
    image. *)
Theorem prepared_blocks_cover_image (bin : list byte) :
  let fw := prepare_firmware bin in
  (forall b, 0 <= b < blocks fw ->
     length (slice (data fw) (b * FIRMWARE_BLOCK_SIZE)
                   (b * FIRMWARE_BLOCK_SIZE + FIRMWARE_BLOCK_SIZE)) = 16%nat)
  /\ (forall b, blocks fw <= b ->
     slice (data fw) (b * FIRMWARE_BLOCK_SIZE)
           (b * FIRMWARE_BLOCK_SIZE + FIRMWARE_BLOCK_SIZE) = [])
  /\ concat (map (fun b => slice (data fw) (b * FIRMWARE_BLOCK_SIZE)
                                 (b * FIRMWARE_BLOCK_SIZE + FIRMWARE_BLOCK_SIZE))
                 (upto 0 (Z.to_nat (blocks fw))))
     = data fw.
Proof.
  cbv zeta. unfold FIRMWARE_BLOCK_SIZE at 1 2 3 4 5 6.
  destruct (prepare_firmware_whole_blocks bin) as (H16 & _).
  set (fw := prepare_firmware bin) in *.
  assert (Hb : 0 <= blocks fw) by lia.
  split; [|split].
  - intros b Hlt. unfold slice. rewrite length_take, length_drop. lia.
  - intros b Hge. unfold slice.
    rewrite drop_ge by lia. apply take_nil.
  - change 0 with (Z.of_nat 0). rewrite blocks_concat; [reflexivity|].
    rewrite length_drop. lia.
Qed.

Lemma prepared_blocks_cover_image_witness :
  length (slice (data (prepare_firmware (replicate 320 x00))) (23 * 16)
                (23 * 16 + 16)) = 16%nat
  /\ slice (data (prepare_firmware (replicate 320 x00))) (24 * 16)
           (24 * 16 + 16) = [].
Proof.
  destruct (prepared_blocks_cover_image (replicate 320 x00)) as (H1 & H2 & _).
  split.
  - apply (H1 23). vm_compute. split; [discriminate|reflexivity].
  - apply (H2 24). vm_compute. discriminate.
Defined.

End Blocks.

(** ** The catalog *)

Section Catalog.

Import Py OTAFirmwareManager.

Lemma load_firmware_some (self : OTAFirmwareManager.t) (ty ve : Z)
    (bin : list byte) :
  bin <> [] ->
  load_firmware self ty ve (Some bin) =
    ({| firmware_store := <[(ty, ve) := prepare_firmware bin]> (firmware_store self);
        requested_nodes := requested_nodes self;
        unstarted_nodes := unstarted_nodes self;
        started_nodes := started_nodes self |}, true).
Proof. intros H. destruct bin; [contradiction|reflexivity]. Qed.

(** X7. Loading a non-empty binary string as firmware [(fw_type, fw_ver)]
    succeeds; the catalog then holds the prepared image under that id,
    every other catalog entry and the three phase dictionaries are as
    before. *)
Theorem load_firmware_then_lookup (self : OTAFirmwareManager.t)
    (fw_type fw_ver : Z) (bin : list byte) :
  bin <> [] ->
  let r := load_firmware self fw_type fw_ver (Some bin) in
  r.2 = true
  /\ firmware_store r.1 !! (fw_type, fw_ver) = Some (prepare_firmware bin)
  /\ (forall id, id <> (fw_type, fw_ver) ->
        firmware_store r.1 !! id = firmware_store self !! id)
  /\ requested_nodes r.1 = requested_nodes self
  /\ unstarted_nodes r.1 = unstarted_nodes self
  /\ started_nodes r.1 = started_nodes self.
Proof.
  intros Hne. cbv zeta. rewrite (load_firmware_some _ _ _ _ Hne). cbn.
  split; [reflexivity|]. split; [apply lookup_insert_eq|].
  split; [|auto]. intros id Hid. now apply lookup_insert_ne.
Qed.

Lemma load_firmware_then_lookup_witness :
  firmware_store (load_firmware init 3 2 (Some Sample.image_320)).1 !! (3, 2)
  = Some (prepare_firmware Sample.image_320).
Proof.
  destruct (load_firmware_then_lookup init 3 2 Sample.image_320)
    as (_ & H & _).
  - vm_compute. discriminate.
  - exact H.
Defined.

(** X8. Loading an id again replaces the image: after two loads of the
    same id the manager is as if only the second had happened, whatever
    the first one was. *)
Theorem load_firmware_replaces (self : OTAFirmwareManager.t)
    (fw_type fw_ver : Z) (first : option (list byte)) (bin : list byte) :
  bin <> [] ->
  (load_firmware (load_firmware self fw_type fw_ver first).1
                 fw_type fw_ver (Some bin)).1
  = (load_firmware self fw_type fw_ver (Some bin)).1.
Proof.
  intros Hne. rewrite !(load_firmware_some _ _ _ _ Hne). cbn [fst].
  destruct first as [[|b l]|]; cbn; try reflexivity.
  now rewrite insert_insert_eq.
Qed.

Lemma load_firmware_replaces_witness :
  (load_firmware (load_firmware init 3 2 (Some Sample.image_200)).1
                 3 2 (Some Sample.image_320)).1
  = (load_firmware init 3 2 (Some Sample.image_320)).1.
Proof.
  apply (load_firmware_replaces init 3 2 (Some Sample.image_200)
           Sample.image_320).
  vm_compute. discriminate.
Defined.

(** X9. Loading firmware under an id that was not in the catalog and
    deleting it again gives back the manager as it was. *)
Theorem load_then_delete_restores (self : OTAFirmwareManager.t)
    (fw_type fw_ver : Z) (bin : list byte) :
  firmware_store self !! (fw_type, fw_ver) = None ->
  bin <> [] ->
  delete_firmware (load_firmware self fw_type fw_ver (Some bin)).1
                  fw_type fw_ver
  = self.
Proof.
  intros Hnone Hne. rewrite (load_firmware_some _ _ _ _ Hne). cbn [fst].
  unfold delete_firmware. cbn [firmware_store requested_nodes unstarted_nodes
                               started_nodes].
  rewrite lookup_insert_eq, (delete_insert_id _ _ _ Hnone).
  now destruct self.
Qed.

Lemma load_then_delete_restores_witness :
  delete_firmware (load_firmware Sample.scheduled 9 9 (Some Sample.image_200)).1
                  9 9
  = Sample.scheduled.
Proof.
  apply (load_then_delete_restores Sample.scheduled 9 9 Sample.image_200).
  - vm_compute. reflexivity.
  - vm_compute. discriminate.
Defined.

(** X10. After [delete_firmware], a request to update any node to the
    deleted id is refused and changes nothing. *)
Theorem deleted_firmware_cannot_be_requested (self : OTAFirmwareManager.t)
    (node_id fw_type fw_ver : Z) :
  request_update (delete_firmware self fw_type fw_ver) node_id fw_type fw_ver
  = (delete_firmware self fw_type fw_ver, false).
Proof.
  unfold request_update.
  assert (H : firmware_store (delete_firmware self fw_type fw_ver)
              !! (fw_type, fw_ver) = None).
  { unfold delete_firmware.
    destruct (firmware_store self !! (fw_type, fw_ver)) eqn:E; [|exact E].
    cbn. apply lookup_delete_eq. }
  now rewrite H.
Qed.

Lemma step_firmware_store (self : OTAFirmwareManager.t) (c : call) :
  match c with
  | LoadFirmware _ _ _ | DeleteFirmware _ _ => True
  | _ => firmware_store (step self c) = firmware_store self
  end.
Proof.
  destruct c as [ty ve bin|ty ve|n ty ve|n p|n p]; cbn [step]; try exact I.
  - unfold request_update. now destruct (firmware_store self !! (ty, ve)).
  - unfold handle_firmware_config_request.
    destruct (fw_hex_to_int p 5); [|reflexivity].
    destruct (or_get _ _) as [[ty ve]|]; [|reflexivity].
    destruct (firmware_store self !! (ty, ve)); [|reflexivity].
    now destruct (fw_int_to_hex _).
  - unfold handle_firmware_request.
    destruct (fw_hex_to_int p 3) as [[|ty [|ve [|b [|? ?]]]]|]; try reflexivity.
    destruct (or_get _ _); [|reflexivity].
    destruct (firmware_store self !! (ty, ve)); [|reflexivity].
    now destruct (fw_int_to_hex _).
Qed.

Lemma step_catalog_prepared (self : OTAFirmwareManager.t) (c : call) :
  catalog_prepared self -> catalog_prepared (step self c).
Proof.
  intros H. pose proof (step_firmware_store self c) as Hs.
  destruct c as [ty ve bin|ty ve|n ty ve|n p|n p];
    try (unfold catalog_prepared; rewrite Hs; exact H).
  - cbn [step]. destruct bin as [[|b bin]|]; try exact H.
    intros id fw. cbn. destruct (decide (id = (ty, ve))) as [->|Hne].
    + rewrite lookup_insert_eq. intros [= <-]. eauto.
    + rewrite lookup_insert_ne by congruence. apply H.
  - cbn [step]. unfold delete_firmware.
    destruct (firmware_store self !! (ty, ve)); [|exact H].
    intros id fw. cbn. destruct (decide (id = (ty, ve))) as [->|Hne].
    + now rewrite lookup_delete_eq.
    + rewrite lookup_delete_ne by congruence. apply H.
Qed.

Lemma run_catalog_prepared (cs : list call) : catalog_prepared (run init cs).
Proof.
  unfold run.
  assert (H0 : catalog_prepared init).
  { intros id fw H. cbn in H. now rewrite lookup_empty in H. }
  revert H0. generalize init.
  induction cs as [|c cs IH]; intros self H; cbn; [exact H|].
  apply IH. now apply step_catalog_prepared.
Qed.

Lemma run_at_most_one (cs : list call) (node_id : Z) :
  at_most_one_phase (run init cs) node_id.
Proof.
  unfold run.
  assert (H0 : at_most_one_phase init node_id).
  { left. split; apply lookup_empty. }
  revert H0. generalize init.
  induction cs as [|c cs IH]; intros self H; cbn; [exact H|].
  apply IH. now apply step_at_most_one.
Qed.

End Catalog.

(** ** The registry and the handlers *)

Section Handlers.

Import Py OTAFirmwareManager.

(** X11. [request_update] is idempotent: asking twice for the same node
    and target gives the same answer and the same manager as asking
    once. *)
Theorem request_update_idempotent (self : OTAFirmwareManager.t)
    (node_id fw_type fw_ver : Z) :
  request_update (request_update self node_id fw_type fw_ver).1
                 node_id fw_type fw_ver
  = request_update self node_id fw_type fw_ver.
Proof.
  unfold request_update.
  destruct (firmware_store self !! (fw_type, fw_ver)) as [fw|] eqn:E;
    cbn [fst firmware_store requested_nodes unstarted_nodes started_nodes];
    rewrite E; [|reflexivity].
  now rewrite insert_insert_eq, !delete_delete_eq.
Qed.

(** X12. A request-update, config request or block request of node [n]
    changes neither the catalog nor the entries of any other node. *)
Theorem handlers_leave_other_nodes (self : OTAFirmwareManager.t)
    (n m fw_type fw_ver : Z) (payload : string) :
  m <> n ->
  untouched self (request_update self n fw_type fw_ver).1 m
  /\ untouched self (handle_firmware_config_request self n payload).1 m
  /\ untouched self (handle_firmware_request self n payload).1 m.
Proof.
  intros Hne.
  assert (Hsame : untouched self self m) by (repeat split).
  split; [|split].
  - unfold request_update.
    destruct (firmware_store self !! (fw_type, fw_ver)); [|exact Hsame].
    repeat split; cbn;
      rewrite ?lookup_insert_ne, ?lookup_delete_ne by congruence; reflexivity.
  - unfold handle_firmware_config_request.
    destruct (fw_hex_to_int payload 5); [|exact Hsame].
    destruct (or_get _ _) as [[ty ve]|]; [|exact Hsame].
    destruct (firmware_store self !! (ty, ve)); [|exact Hsame].
    destruct (fw_int_to_hex _); repeat split; cbn;
      rewrite ?lookup_insert_ne, ?lookup_delete_ne by congruence; reflexivity.
  - unfold handle_firmware_request.
    destruct (fw_hex_to_int payload 3) as [[|ty [|ve [|b [|? ?]]]]|];
      try exact Hsame.
    destruct (or_get _ _); [|exact Hsame].
    destruct (firmware_store self !! (ty, ve)); [|exact Hsame].
    destruct (fw_int_to_hex _); repeat split; cbn;
      rewrite ?lookup_insert_ne, ?lookup_delete_ne by congruence; reflexivity.
Qed.

Lemma handlers_leave_other_nodes_witness :
  untouched Sample.unstarted_3_2
    (handle_firmware_request Sample.unstarted_3_2 8 "090009000100").1 7.
Proof.
  destruct (handlers_leave_other_nodes Sample.unstarted_3_2 8 7 0 0
              "090009000100") as (_ & _ & H).
  - discriminate.
  - exact H.
Defined.

(** X13. In every state the manager can reach, [get_node_status] names
    the dictionary that holds the node: it answers ["requested"],
    ["unstarted"] or ["started"] exactly when the node is in that
    dictionary, and nothing exactly when the node is in none. *)
Theorem status_names_the_phase (cs : list call) (node_id : Z) :
  let self := run init cs in
  (get_node_status self node_id = Some "requested"
     <-> is_Some (requested_nodes self !! node_id))
  /\ (get_node_status self node_id = Some "unstarted"
     <-> is_Some (unstarted_nodes self !! node_id))
  /\ (get_node_status self node_id = Some "started"
     <-> is_Some (started_nodes self !! node_id))
  /\ (get_node_status self node_id = None
     <-> requested_nodes self !! node_id = None
         /\ unstarted_nodes self !! node_id = None
         /\ started_nodes self !! node_id = None).
Proof.
  cbv zeta. pose proof (run_at_most_one cs node_id) as H.
  unfold at_most_one_phase in H. unfold get_node_status.
  destruct (requested_nodes (run init cs) !! node_id) as [r|] eqn:Hr;
    destruct (unstarted_nodes (run init cs) !! node_id) as [u|] eqn:Hu;
    destruct (started_nodes (run init cs) !! node_id) as [s|] eqn:Hs;
    try (exfalso; destruct H as [[? ?]|[[? ?]|[? ?]]]; discriminate);
    rewrite ?bool_decide_eq_true_2 by eauto;
    rewrite ?bool_decide_eq_false_2 by (intros [? ?]; discriminate);
    repeat split; intros; try discriminate; eauto;
    try (match goal with
         | H : is_Some None |- _ => destruct H; discriminate
         | H : _ /\ _ |- _ => destruct H as (? & ? & ?); discriminate
         end).
Qed.

(** X14. In every state the manager can reach, a config request of a node
    that is started is ignored: no response, nothing changes. *)
Theorem config_request_of_started_node_ignored (cs : list call)
    (node_id : Z) (payload : string) :
  is_Some (started_nodes (run init cs) !! node_id) ->
  handle_firmware_config_request (run init cs) node_id payload
  = (run init cs, Ret None).
Proof.
  intros [fw_id Hs]. pose proof (run_at_most_one cs node_id) as H.
  unfold at_most_one_phase in H. unfold handle_firmware_config_request.
  destruct (fw_hex_to_int payload 5); [|reflexivity].
  assert (Hr : requested_nodes (run init cs) !! node_id = None).
  { destruct H as [[? ?]|[[? ?]|[? ?]]]; congruence. }
  assert (Hu : unstarted_nodes (run init cs) !! node_id = None).
  { destruct H as [[? ?]|[[? ?]|[? ?]]]; congruence. }
  now rewrite Hr, Hu.
Qed.

Lemma config_request_of_started_node_ignored_witness :
  let cs := [LoadFirmware 3 2 (Some Sample.image_320); RequestUpdate 7 3 2;
             ConfigRequest 7 Sample.config_payload;
             BlockRequest 7 "030002000000"] in
  get_node_status (run init cs) 7 = Some "started"
  /\ handle_firmware_config_request (run init cs) 7 Sample.config_payload
     = (run init cs, Ret None).
Proof.
  cbv zeta. split; [vm_compute; reflexivity|].
  apply config_request_of_started_node_ignored.
  vm_compute. eexists. reflexivity.
Defined.

(** X15. Right after a successful [request_update] the node cannot pull
    blocks yet: a block request with any payload gets no response and
    changes nothing, the node stays requested. *)
Theorem block_request_before_config_ignored (self : OTAFirmwareManager.t)
    (node_id fw_type fw_ver : Z) (payload : string) :
  is_Some (firmware_store self !! (fw_type, fw_ver)) ->
  let scheduled := (request_update self node_id fw_type fw_ver).1 in
  handle_firmware_request scheduled node_id payload = (scheduled, Ret None).
Proof.
  intros [fw Hfw]. cbv zeta. unfold request_update. rewrite Hfw. cbn [fst].
  unfold handle_firmware_request.
  destruct (fw_hex_to_int payload 3) as [[|ty [|ve [|b [|? ?]]]]|];
    try reflexivity.
  cbn [unstarted_nodes started_nodes]. now rewrite !lookup_delete_eq.
Qed.

Lemma block_request_before_config_ignored_witness :
  handle_firmware_request Sample.scheduled 7 "030002000000"
  = (Sample.scheduled, Ret None).
Proof.
  apply (block_request_before_config_ignored
           (load_firmware init 3 2 (Some Sample.image_320)).1 7 3 2
           "030002000000").
  vm_compute. eexists. reflexivity.
Defined.

(** X16. [handle_firmware_request] never raises: the words it packs into
    the response are the ones it unpacked from the request. *)
Theorem block_request_never_raises (self : OTAFirmwareManager.t)
    (node_id : Z) (payload : string) :
  exists response,
    (handle_firmware_request self node_id payload).2 = Ret response.
Proof.
  unfold handle_firmware_request.
  destruct (fw_hex_to_int payload 3) as [ws|] eqn:Hdec; [|cbn; eauto].
  destruct (fw_int_to_hex_decoded _ _ _ Hdec) as [h Hh].
  destruct ws as [|ty [|ve [|b [|? ?]]]]; try (cbn; eauto; fail).
  destruct (or_get _ _); [|cbn; eauto].
  destruct (firmware_store self !! (ty, ve)); [|cbn; eauto].
  rewrite Hh. cbn. eauto.
Qed.

(** X17. In every state the manager can reach, a config request (with a
    payload of five words) of a node whose target is in the catalog
    raises exactly when the target's type or version, or the block count
    of its image, does not fit 16 bits; [request_update] accepts such ids.
    Raising or not, the node has been moved to unstarted. *)
Theorem config_request_raises_iff_too_large (cs : list call) (node_id : Z)
    (payload : string) (ws : list Z) (fw_type fw_ver : Z) (fw : fware) :
  let self := run init cs in
  fw_hex_to_int payload 5 = Some ws ->
  or_get (requested_nodes self !! node_id) (unstarted_nodes self !! node_id)
    = Some (fw_type, fw_ver) ->
  firmware_store self !! (fw_type, fw_ver) = Some fw ->
  let r := handle_firmware_config_request self node_id payload in
  (r.2 = Raise <->
     ~ (0 <= fw_type <= 65535 /\ 0 <= fw_ver <= 65535 /\ blocks fw <= 65535))
  /\ requested_nodes r.1 !! node_id = None
  /\ unstarted_nodes r.1 !! node_id = Some (fw_type, fw_ver).
Proof.
  cbv zeta. intros Hdec Hget Hfw.
  destruct (run_catalog_prepared cs _ _ Hfw) as [bin ->].
  set (fw := prepare_firmware bin) in *.
  destruct (prepare_firmware_whole_blocks bin) as (H16 & Hcrc).
  fold fw in H16, Hcrc.
  pose proof (compute_crc16_uint16 (data fw)) as Hc. rewrite <- Hcrc in Hc.
  unfold handle_firmware_config_request. rewrite Hdec, Hget, Hfw.
  destruct (fw_int_to_hex [fw_type; fw_ver; blocks fw; crc fw]) as [h|] eqn:E;
    cbn [fst snd requested_nodes unstarted_nodes];
    rewrite lookup_delete_eq, lookup_insert_eq;
    (split; [|split; reflexivity]).
  - split; [discriminate|]. intros Hn. exfalso. apply Hn.
    assert (Hex : ~ Exists (fun w => w < 0 \/ 65535 < w)
                           [fw_type; fw_ver; blocks fw; crc fw]).
    { intros Hex. apply fw_int_to_hex_None in Hex.
      congruence. }
    rewrite !Exists_cons, Exists_nil in Hex. lia.
  - split; [|reflexivity]. intros _ (H1 & H2 & H3).
    assert (Hex : Exists (fun w => w < 0 \/ 65535 < w)
                         [fw_type; fw_ver; blocks fw; crc fw]).
    { now apply fw_int_to_hex_None. }
    rewrite !Exists_cons, Exists_nil in Hex. lia.
Qed.

Lemma config_request_raises_iff_too_large_witness :
  let cs := [LoadFirmware 70000 1 (Some Sample.image_320);
             RequestUpdate 7 70000 1] in
  (request_update (load_firmware init 70000 1 (Some Sample.image_320)).1
                  7 70000 1).2 = true
  /\ (handle_firmware_config_request (run init cs) 7 Sample.config_payload).2
     = Raise
  /\ unstarted_nodes
       (handle_firmware_config_request (run init cs) 7 Sample.config_payload).1
       !! 7 = Some (70000, 1).
Proof.
  cbv zeta. split; [vm_compute; reflexivity|].
  destruct (config_request_raises_iff_too_large
              [LoadFirmware 70000 1 (Some Sample.image_320);
               RequestUpdate 7 70000 1]
              7 Sample.config_payload [1; 1; 0; 0; 65535] 70000 1
              (prepare_firmware Sample.image_320))
    as (Hiff & _ & Hu).
  - vm_compute. reflexivity.
  - vm_compute. reflexivity.
  - vm_compute. reflexivity.
  - split; [|exact Hu]. apply Hiff. intros (H & _). lia.
Defined.

End Handlers.

(** ** Sensor and value ids *)

(** X18. [split_usid] undoes [make_usid] for every node id when the child
    id is between 0 and 999, so two sensors with child ids in that range
    never share an id. *)
Theorem split_make_usid (nid cid : Z) :
  0 <= cid < 1000 -> split_usid (make_usid nid cid) = (nid, cid).
Proof.
  intros H. unfold split_usid, make_usid. f_equal.
  - rewrite Z.add_comm, Z.mul_comm, Z.div_add by lia.
    rewrite Z.div_small; lia.
  - rewrite Z.add_comm, Z.mul_comm, Z.mod_add by lia.
    apply Z.mod_small; lia.
Qed.

Lemma split_make_usid_witness : split_usid (make_usid 106 61) = (106, 61).
Proof. apply split_make_usid. lia. Defined.

(** X19. [make_uvid] gives different ids to different (node, child, type)
    triples as long as node and child ids are between 0 and 999. *)
Theorem make_uvid_injective (nid cid typ nid' cid' typ' : Z) :
  0 <= nid < 1000 -> 0 <= cid < 1000 ->
  0 <= nid' < 1000 -> 0 <= cid' < 1000 ->
  make_uvid nid cid typ = make_uvid nid' cid' typ' ->
  nid = nid' /\ cid = cid' /\ typ = typ'.
Proof. unfold make_uvid. lia. Qed.

Lemma make_uvid_injective_witness :
  make_uvid 106 61 23 = 23106061 /\ (106 = 106 /\ 61 = 61 /\ 23 = 23).
Proof.
  split; [reflexivity|].
  apply (make_uvid_injective 106 61 23 106 61 23); lia.
Defined.

(** ** Framing and sending *)

Section Framing.

Import Py Link.

Lemma string_app_assoc (a b c : string) : (a +:+ b) +:+ c = a +:+ (b +:+ c).
Proof.
  induction a as [|x a IH]; [reflexivity|].
  change (String x ((a +:+ b) +:+ c) = String x (a +:+ (b +:+ c))).
  now rewrite IH.
Qed.

Lemma string_app_empty (a : string) : a +:+ EmptyString = a.
Proof.
  induction a as [|x a IH]; [reflexivity|].
  change (String x (a +:+ EmptyString) = String x a). now rewrite IH.
Qed.

Lemma string_app_length (a b : string) :
  String.length (a +:+ b) = (String.length a + String.length b)%nat.
Proof.
  induction a as [|x a IH]; [reflexivity|].
  change (S (String.length (a +:+ b))
          = S (String.length a + String.length b)). now rewrite IH.
Qed.

Lemma contains_app (c : ascii) (a b : string) :
  contains c (a +:+ b) = contains c a || contains c b.
Proof.
  induction a as [|x a IH]; [reflexivity|].
  change (Ascii.eqb x c || contains c (a +:+ b)
          = Ascii.eqb x c || contains c a || contains c b).
  now rewrite IH, orb_assoc.
Qed.

Lemma split_once_some (sep : ascii) (s h t : string) :
  split_once sep s = Some (h, t) ->
  s = h +:+ String sep t /\ contains sep h = false
  /\ (String.length t < String.length s)%nat.
Proof.
  revert h. induction s as [|c r IH]; intros h H; [discriminate|].
  cbn in H. destruct (Ascii.eqb c sep) eqn:Hc.
  - apply Ascii.eqb_eq in Hc. inversion H; subst. cbn. auto.
  - destruct (split_once sep r) as [[h' t']|]; [|discriminate].
    inversion H; subst. destruct (IH h' eq_refl) as (-> & Hh & Hl).
    cbn. rewrite Hc, Hh. repeat split. cbn in *. lia.
Qed.

Lemma split_once_none (sep : ascii) (s : string) :
  split_once sep s = None <-> contains sep s = false.
Proof.
  induction s as [|c r IH]; cbn; [tauto|].
  destruct (Ascii.eqb c sep); cbn; [split; discriminate|].
  destruct (split_once sep r) as [[h t]|].
  - split; [discriminate|]. intros H. apply IH in H. discriminate.
  - tauto.
Qed.

Lemma split_once_app (sep : ascii) (h t : string) :
  contains sep h = false -> split_once sep (h +:+ String sep t) = Some (h, t).
Proof.
  induction h as [|c r IH].
  - intros _. change (EmptyString +:+ String sep t) with (String sep t).
    cbn [split_once]. now rewrite Ascii.eqb_refl.
  - change (String c r +:+ String sep t) with (String c (r +:+ String sep t)).
    cbn [split_once contains]. rewrite orb_false_iff. intros [Hc Hr].
    now rewrite Hc, (IH Hr).
Qed.

Lemma frame_lines_sound (fuel : nat) (buffer : string) :
  (String.length buffer <= fuel)%nat ->
  let '(lines, kept) := frame_lines fuel buffer in
  buffer = unlines lines +:+ kept
  /\ contains newline kept = false
  /\ Forall (fun l => contains newline l = false) lines.
Proof.
  revert buffer. induction fuel as [|f IH]; intros buffer Hlen.
  - destruct buffer; [|cbn in Hlen; lia]. cbn. auto.
  - cbn [frame_lines].
    destruct (split_once newline buffer) as [[line rest]|] eqn:E.
    + destruct (split_once_some _ _ _ _ E) as (-> & Hline & Hl).
      specialize (IH rest ltac:(lia)).
      destruct (frame_lines f rest) as [lines kept].
      destruct IH as (Hrest & Hkept & Hall).
      split; [|split; [exact Hkept|now constructor]].
      cbn [unlines]. rewrite string_app_assoc, Hrest. reflexivity.
    + apply split_once_none in E. cbn. auto.
Qed.

Lemma frame_lines_unlines (fuel : nat) (lines : list string) (kept : string) :
  Forall (fun l => contains newline l = false) lines ->
  contains newline kept = false ->
  (String.length (unlines lines +:+ kept) <= fuel)%nat ->
  frame_lines fuel (unlines lines +:+ kept) = (lines, kept).
Proof.
  intros Hall Hkept. revert fuel.
  induction Hall as [|l lines Hl _ IH]; intros fuel Hlen.
  - change (unlines [] +:+ kept) with kept.
    destruct fuel; [reflexivity|]. cbn [frame_lines].
    apply split_once_none in Hkept. now rewrite Hkept.
  - cbn [unlines] in *. rewrite string_app_assoc in *.
    change (String newline (unlines lines) +:+ kept)
      with (String newline (unlines lines +:+ kept)) in *.
    rewrite string_app_length in Hlen. cbn [String.length] in Hlen.
    destruct fuel as [|f]; [lia|]. cbn [frame_lines].
    rewrite (split_once_app _ _ _ Hl), IH by lia. reflexivity.
Qed.

Lemma frame_unlines (lines : list string) (kept : string) :
  Forall (fun l => contains newline l = false) lines ->
  contains newline kept = false ->
  frame (unlines lines +:+ kept) = (lines, kept).
Proof. intros H1 H2. unfold frame. now apply frame_lines_unlines. Qed.

Lemma unlines_app (a b : list string) :
  unlines (a ++ b) = unlines a +:+ unlines b.
Proof.
  induction a as [|l a IH]; [reflexivity|].
  cbn [unlines app]. rewrite IH, string_app_assoc. reflexivity.
Qed.

Lemma frame_sound (buffer : string) :
  let '(lines, kept) := frame buffer in
  buffer = unlines lines +:+ kept
  /\ contains newline kept = false
  /\ Forall (fun l => contains newline l = false) lines.
Proof. apply frame_lines_sound. reflexivity. Qed.

(** X20. The framing loop of the listener loses nothing and leaves no
    complete line behind: the lines it hands on, each followed by a
    newline, and then the text it keeps, are the buffer again; no line
    and no kept text holds a newline. *)
Theorem frame_splits_at_newlines (buffer : string) :
  let '(lines, kept) := frame buffer in
  buffer = unlines lines +:+ kept
  /\ contains newline kept = false
  /\ Forall (fun l => contains newline l = false) lines.
Proof. apply frame_sound. Qed.

(** X21. The framing loop works on the text appended to the buffer, and
    the unfinished line it keeps is completed by text appended later:
    running the loop on the buffer with text [a] appended, and then on
    what it kept with text [b] appended, hands on the same lines in the
    same order and keeps the same text as running it once with [a] and
    [b] both appended. Here [a] and [b] are the texts after decoding;
    each read is decoded on its own before it is appended, which is not
    part of this statement. *)
Theorem frame_in_pieces (buffer a b : string) :
  let '(lines1, kept1) := frame (buffer +:+ a) in
  let '(lines2, kept2) := frame (kept1 +:+ b) in
  frame (buffer +:+ (a +:+ b)) = ((lines1 ++ lines2)%list, kept2).
Proof.
  pose proof (frame_sound (buffer +:+ a)) as H1.
  destruct (frame (buffer +:+ a)) as [lines1 kept1].
  destruct H1 as (Hab & _ & Hall1).
  pose proof (frame_sound (kept1 +:+ b)) as H2.
  destruct (frame (kept1 +:+ b)) as [lines2 kept2].
  destruct H2 as (Hkb & Hkept2 & Hall2).
  rewrite <- string_app_assoc, Hab, string_app_assoc, Hkb.
  rewrite <- string_app_assoc, <- unlines_app.
  apply frame_unlines; [|exact Hkept2].
  apply Forall_app. now split.
Qed.

(** X22. Messages without a newline that are sent one after the other
    over a socket arrive, for a peer that frames like the listener, as
    exactly these lines in this order, with nothing left over. Without a
    socket nothing is written, and there is still no socket afterwards:
    the messages are dropped, not queued. *)
Theorem sent_messages_frame_back (messages : list string) :
  Forall (fun m => contains newline m = false) messages ->
  exists written,
    send_all (Some EmptyString) messages = Some written
    /\ frame written = (messages, EmptyString)
    /\ send_all None messages = None.
Proof.
  intros Hall. exists (unlines messages).
  assert (Hsend : forall w, send_all (Some w) messages
                            = Some (w +:+ unlines messages)).
  { clear Hall. unfold send_all.
    induction messages as [|m ms IH]; intros w; cbn [fold_left unlines].
    - now rewrite string_app_empty.
    - cbn [send_message_to_gateway]. rewrite IH.
      f_equal. rewrite !string_app_assoc. reflexivity. }
  split; [apply (Hsend EmptyString)|]. split.
  - rewrite <- (string_app_empty (unlines messages)).
    now apply frame_unlines.
  - clear. unfold send_all. induction messages; [reflexivity|assumption].
Qed.

Lemma sent_messages_frame_back_witness :
  exists written,
    send_all (Some EmptyString) ["7;255;3;0;13;"; "255;255;3;0;19;"]
      = Some written
    /\ frame written = (["7;255;3;0;13;"; "255;255;3;0;19;"], EmptyString)
    /\ send_all None ["7;255;3;0;13;"; "255;255;3;0;19;"] = None.
Proof.
  apply (sent_messages_frame_back ["7;255;3;0;13;"; "255;255;3;0;19;"]).
  repeat constructor.
Defined.

End Framing.

(** ** More on line processing *)

Section MoreLines.

Import Py Gateway.

(** X23. The one-second window slides: it is measured from the previous
    arrival, dropped or not. A run of repeats of the remembered line, each
    at most a second after the one before, is dropped entirely, however
    long the run lasts, and the listener keeps running. *)
Theorem steady_repeats_all_dropped (downstream : storage) (st : state)
    (line : string) (ts : list Q) :
  strip line <> EmptyString ->
  last_message st = strip line ->
  gaps_within (last_time st) ts ->
  (gateway_listener downstream st (map (fun t => (t, line)) ts)).1.2
    = replicate (length ts) Duplicate
  /\ (gateway_listener downstream st (map (fun t => (t, line)) ts)).2 = true.
Proof.
  intros Hne. revert st. induction ts as [|t ts IH]; intros st Hm Hg.
  - split; reflexivity.
  - destruct Hg as [Ht Hg]. cbn [map gateway_listener].
    rewrite (process_repeat st t line Hne Hm Ht).
    specialize (IH {| last_message := strip line; last_time := t |}
                   eq_refl Hg).
    destruct (gateway_listener _ _ (map _ ts)) as [[st' os] alive].
    cbn in IH |- *. destruct IH as [-> ->]. split; reflexivity.
Qed.

Lemma steady_repeats_all_dropped_witness :
  let st := (process_gateway_message (initial 0) 10 "5;1;1;0;2;37").1 in
  (gateway_listener (fun _ _ _ _ _ _ _ => true) st
     (map (fun t => (t, "5;1;1;0;2;37")) [(108 # 10)%Q; (116 # 10)%Q; (124 # 10)%Q])).1.2
    = replicate 3 Duplicate
  /\ (gateway_listener (fun _ _ _ _ _ _ _ => true) st
     (map (fun t => (t, "5;1;1;0;2;37")) [(108 # 10)%Q; (116 # 10)%Q; (124 # 10)%Q])).2
    = true.
Proof.
  cbv zeta.
  apply (steady_repeats_all_dropped (fun _ _ _ _ _ _ _ => true)
           (process_gateway_message (initial 0) 10 "5;1;1;0;2;37").1
           "5;1;1;0;2;37" [(108 # 10)%Q; (116 # 10)%Q; (124 # 10)%Q]).
  - vm_compute. discriminate.
  - vm_compute. reflexivity.
  - vm_compute. repeat split; discriminate.
Defined.

Lemma split_length (sep : ascii) (s : string) :
  length (split sep s) = S (count sep s).
Proof.
  induction s as [|c r IH]; [reflexivity|]. cbn [split count].
  destruct (Ascii.eqb c sep); cbn [length]; [now rewrite IH|].
  destruct (split sep r); cbn in *; lia.
Qed.

Lemma split_fields_no_sep (sep : ascii) (s : string) :
  Forall (fun f => contains sep f = false) (split sep s).
Proof.
  induction s as [|c r IH]; [repeat constructor|]. cbn [split].
  destruct (Ascii.eqb c sep) eqn:Hc; [now constructor|].
  destruct (split sep r) as [|h t]; [repeat constructor; cbn; now rewrite Hc|].
  inversion IH; subst. constructor; [|assumption]. cbn. now rewrite Hc.
Qed.

(** X24. A stripped line is reported as having an invalid format exactly
    when it holds fewer than five separators. With five or more, the call
    ends in [sys.exit(1)] exactly when [int] fails on one of the first
    five fields; otherwise, exactly when all five read as integers, these
    five integers and the sixth field are handed on as the message. *)
Theorem decode_fields_by_separators (line : string) :
  let fields := split ";" line in
  (decode_fields line = InvalidFormat <-> (count ";" line < 5)%nat)
  /\ ((5 <= count ";" line)%nat ->
      (decode_fields line = SystemExit
         <-> Exists (fun p => int p = None) (take 5 fields))
      /\ ((exists nid cid cmd ack typ val,
             decode_fields line = Decoded nid cid cmd ack typ val)
          <-> Forall (fun p => is_Some (int p)) (take 5 fields))
      /\ (forall nid cid cmd ack typ val,
            decode_fields line = Decoded nid cid cmd ack typ val ->
            int <$> take 5 fields
              = [Some nid; Some cid; Some cmd; Some ack; Some typ]
            /\ fields !! 5%nat = Some val)).
Proof.
  cbv zeta. pose proof (split_length ";" line) as Hl. unfold decode_fields.
  destruct (split ";" line) as [|p0 [|p1 [|p2 [|p3 [|p4 [|p5 rest]]]]]];
    cbn [length] in Hl;
    try (split; [split; [lia|reflexivity]|intros Hge; lia]).
  cbn [take]. split.
  { split; [|lia].
    destruct (int p0), (int p1), (int p2), (int p3), (int p4); discriminate. }
  intros _.
  rewrite !Exists_cons, Exists_nil, !Forall_cons.
  destruct (int p0) as [n0|] eqn:E0; destruct (int p1) as [n1|] eqn:E1;
    destruct (int p2) as [n2|] eqn:E2; destruct (int p3) as [n3|] eqn:E3;
    destruct (int p4) as [n4|] eqn:E4;
    (split; [|split]);
    try (split; [intros H; first [discriminate H|tauto]
                |intros H; first [reflexivity
                                 |exfalso; intuition discriminate]]);
    try (split;
         [intros (? & ? & ? & ? & ? & ? & H); discriminate H
         |intros H; exfalso;
          repeat match goal with
                 | H : _ /\ _ |- _ => destruct H
                 | H : is_Some None |- _ => destruct H; discriminate
                 end]);
    try (intros ? ? ? ? ? ? H; discriminate H).
  - split; [intros _; repeat split; eauto|intros _; eauto 10].
  - intros nid cid cmd ack typ val [= <- <- <- <- <- <-].
    cbn. rewrite E0, E1, E2, E3, E4. split; reflexivity.
Qed.

Lemma decode_fields_by_separators_witness :
  decode_fields "a;1;1;0;2;37" = SystemExit
  /\ exists nid cid cmd ack typ val,
       decode_fields "5;1;1;0;2;37" = Decoded nid cid cmd ack typ val.
Proof.
  split.
  - destruct (decode_fields_by_separators "a;1;1;0;2;37") as (_ & H).
    destruct H as (Hexit & _); [vm_compute; lia|].
    apply Hexit. left. vm_compute. reflexivity.
  - destruct (decode_fields_by_separators "5;1;1;0;2;37") as (_ & H).
    destruct H as (_ & Hdec & _); [vm_compute; lia|].
    apply Hdec. repeat constructor; vm_compute; eexists; reflexivity.
Defined.

(** X25. Whatever line is decoded, the payload handed on holds no
    separator, the line held at least five separators, and the five
    numbers are what [int] reads from the first five fields. *)
Theorem decoded_fields_shape (line : string) (nid cid cmd ack typ : Z)
    (val : string) :
  decode_fields line = Decoded nid cid cmd ack typ val ->
  contains ";" val = false
  /\ (5 <= count ";" line)%nat
  /\ exists p0 p1 p2 p3 p4 rest,
       split ";" line = p0 :: p1 :: p2 :: p3 :: p4 :: val :: rest
       /\ int p0 = Some nid /\ int p1 = Some cid /\ int p2 = Some cmd
       /\ int p3 = Some ack /\ int p4 = Some typ.
Proof.
  intros H. pose proof (split_length ";" line) as Hl.
  pose proof (split_fields_no_sep ";" line) as Hf.
  unfold decode_fields in H.
  destruct (split ";" line) as [|p0 [|p1 [|p2 [|p3 [|p4 [|p5 rest]]]]]];
    try discriminate.
  destruct (int p0) as [n0|] eqn:E0; [|discriminate].
  destruct (int p1) as [n1|] eqn:E1; [|discriminate].
  destruct (int p2) as [n2|] eqn:E2; [|discriminate].
  destruct (int p3) as [n3|] eqn:E3; [|discriminate].
  destruct (int p4) as [n4|] eqn:E4; [|discriminate].
  inversion H; subst; clear H. cbn [length] in Hl.
  split; [|split; [lia|]].
  - do 5 (apply Forall_cons in Hf as [_ Hf]).
    now apply Forall_cons in Hf as [Hf _].
  - exists p0, p1, p2, p3, p4, rest. repeat split; assumption.
Qed.

Lemma decoded_fields_shape_witness :
  contains ";" "a" = false
  /\ (5 <= count ";" "1;2;3;0;4;a;b")%nat
  /\ exists p0 p1 p2 p3 p4 rest,
       split ";" "1;2;3;0;4;a;b" = p0 :: p1 :: p2 :: p3 :: p4 :: "a" :: rest
       /\ int p0 = Some 1 /\ int p1 = Some 2 /\ int p2 = Some 3
       /\ int p3 = Some 0 /\ int p4 = Some 4.
Proof.
  apply (decoded_fields_shape "1;2;3;0;4;a;b" 1 2 3 0 4 "a").
  vm_compute. reflexivity.
Defined.

End MoreLines.

(** ** Outgoing messages *)

Section Outgoing.

Import Py OTAFirmwareManager Gateway Link.

Lemma every_app (P : ascii -> bool) (a b : string) :
  every P (a +:+ b) = every P a && every P b.
Proof.
  induction a as [|x a IH]; [reflexivity|].
  change (P x && every P (a +:+ b) = P x && every P a && every P b).
  now rewrite IH, andb_assoc.
Qed.

Lemma every_plain (s : string) :
  every plain s = true ->
  rstrip s = s /\ contains ";" s = false /\ contains newline s = false.
Proof.
  intros H. split; [|split].
  - apply rstrip_nospace. revert H. apply every_impl.
    intros c Hc. unfold plain in Hc. now apply andb_true_iff in Hc as [-> _].
  - induction s as [|c r IH]; [reflexivity|]. cbn in *.
    apply andb_true_iff in H as [Hc Hr]. rewrite (IH Hr), orb_false_r.
    unfold plain in Hc. apply andb_true_iff in Hc as [_ Hc].
    now apply negb_true_iff in Hc.
  - induction s as [|c r IH]; [reflexivity|]. cbn in *.
    apply andb_true_iff in H as [Hc Hr]. rewrite (IH Hr), orb_false_r.
    unfold plain in Hc. apply andb_true_iff in Hc as [Hc _].
    apply negb_true_iff in Hc.
    destruct (Ascii.eqb_spec c newline) as [->|]; [discriminate Hc|reflexivity].
Qed.

Lemma hex_digit_plain (n : N) : (n < 16)%N -> plain (Binascii.hex_digit n) = true.
Proof.
  intros Hn. destruct n as [|p]; [reflexivity|].
  do 4 (destruct p as [p|p|]; try reflexivity); lia.
Qed.

Lemma hexlify_plain (bs : list byte) : every plain (Binascii.hexlify bs) = true.
Proof.
  induction bs as [|b bs IH]; [reflexivity|].
  cbn [Binascii.hexlify every]. pose proof (Byte.to_N_bounded b).
  rewrite !hex_digit_plain, IH; [reflexivity| |].
  - apply N.mod_lt; lia.
  - apply N.Div0.div_lt_upper_bound; lia.
Qed.

Lemma fw_int_to_hex_plain (ws : list Z) (h : string) :
  fw_int_to_hex ws = Some h -> every plain h = true.
Proof.
  unfold fw_int_to_hex. destruct (Struct.pack_H ws); [|discriminate].
  cbn. intros [= <-]. apply hexlify_plain.
Qed.

Lemma config_response_plain (m m' : OTAFirmwareManager.t) (n : Z)
    (payload p : string) :
  handle_firmware_config_request m n payload = (m', Ret (Some p)) ->
  every plain p = true.
Proof.
  unfold handle_firmware_config_request.
  destruct (fw_hex_to_int payload 5); [|discriminate].
  destruct (or_get _ _) as [[ty ve]|]; [|discriminate].
  destruct (firmware_store m !! (ty, ve)); [|discriminate].
  destruct (fw_int_to_hex _) as [h|] eqn:E; [|discriminate].
  intros [= _ <-]. exact (fw_int_to_hex_plain _ _ E).
Qed.

Lemma block_response_plain (m m' : OTAFirmwareManager.t) (n : Z)
    (payload p : string) :
  handle_firmware_request m n payload = (m', Ret (Some p)) ->
  every plain p = true.
Proof.
  unfold handle_firmware_request.
  destruct (fw_hex_to_int payload 3) as [[|ty [|ve [|b [|? ?]]]]|];
    try discriminate.
  destruct (or_get _ _); [|discriminate].
  destruct (firmware_store m !! (ty, ve)); [|discriminate].
  destruct (fw_int_to_hex _) as [h|] eqn:E; [|discriminate].
  intros [= _ <-]. rewrite every_app, (fw_int_to_hex_plain _ _ E).
  apply hexlify_plain.
Qed.

Lemma format_message_no_newline (nid cid cmd ack typ : Z) (payload : string) :
  contains newline payload = false ->
  contains newline (format_message nid cid cmd ack typ payload) = false.
Proof.
  intros Hp. unfold format_message.
  assert (Hs : forall n, contains newline (str n) = false).
  { intros n. destruct (str_shape n) as (_ & _ & _ & _ & Hns & _).
    induction (str n) as [|c r IH]; [reflexivity|]. cbn in *.
    apply andb_true_iff in Hns as [Hc Hr]. rewrite (IH Hr), orb_false_r.
    apply negb_true_iff in Hc.
    destruct (Ascii.eqb_spec c newline) as [->|]; [discriminate Hc|reflexivity]. }
  rewrite !contains_app, !Hs, Hp. reflexivity.
Qed.

(** A formatted message whose payload is plain is a line of its own that
    decodes to its fields. *)
Lemma plain_message_decodes (nid cid cmd ack typ : Z) (payload : string) :
  every plain payload = true ->
  let line := format_message nid cid cmd ack typ payload in
  decode_fields line = Decoded nid cid cmd ack typ payload
  /\ strip line = line
  /\ contains newline line = false.
Proof.
  intros H. destruct (every_plain _ H) as (Hr & Hs & Hn). cbv zeta.
  split; [now apply decode_fields_format_message|].
  split; [now apply strip_format_message|now apply format_message_no_newline].
Qed.

Lemma rstrip_idempotent (s : string) : rstrip (rstrip s) = rstrip s.
Proof.
  induction s as [|c r IH]; [reflexivity|]. cbn [rstrip].
  destruct (rstrip r) as [|a t] eqn:E.
  - destruct (isspace c) eqn:Hc; [reflexivity|]. cbn. now rewrite Hc.
  - remember (String a t) as R eqn:HR. cbn [rstrip]. rewrite IH.
    subst R. reflexivity.
Qed.

Lemma contains_lstrip (c : ascii) (s : string) :
  contains c s = false -> contains c (lstrip s) = false.
Proof.
  induction s as [|x r IH]; [reflexivity|]. cbn [lstrip].
  destruct (isspace x); [|exact (fun H => H)].
  cbn [contains]. rewrite orb_false_iff. intros [_ H]. now apply IH.
Qed.

Lemma contains_rstrip (c : ascii) (s : string) :
  contains c s = false -> contains c (rstrip s) = false.
Proof.
  induction s as [|x r IH]; [reflexivity|]. cbn [contains rstrip].
  rewrite orb_false_iff. intros [Hx Hr]. specialize (IH Hr).
  destruct (rstrip r) as [|a t].
  - destruct (isspace x); [reflexivity|]. cbn. now rewrite Hx.
  - cbn [contains] in *. now rewrite Hx, IH.
Qed.

End Outgoing.

Section Stream.

Import Py OTAFirmwareManager Gateway Link.

Variables C_INTERNAL C_STREAM I_REBOOT : Z.
Variables I_HEARTBEAT_RESPONSE I_POST_SLEEP_NOTIFICATION : Z.
Variables ST_FIRMWARE_CONFIG_REQUEST ST_FIRMWARE_CONFIG_RESPONSE : Z.
Variables ST_FIRMWARE_REQUEST ST_FIRMWARE_RESPONSE : Z.

(** X26. Every response [handle_stream_message] builds is one line of the
    wire format: it holds no newline, stripping does not change it, and
    the decoder reads from it the node id, child 255, the stream command,
    ack 0, the response type that belongs to the request type, and the
    payload the handler returned. *)
Theorem stream_response_is_wire_line
    (m : OTAFirmwareManager.t) (node_id child_id stream_type : Z)
    (payload : string) (ota' : option OTAFirmwareManager.t) (line : string) :
  handle_stream_message C_STREAM ST_FIRMWARE_CONFIG_REQUEST
    ST_FIRMWARE_CONFIG_RESPONSE ST_FIRMWARE_REQUEST ST_FIRMWARE_RESPONSE
    (Some m) node_id child_id stream_type payload = (ota', Some line) ->
  exists m' response_type p,
    ota' = Some m'
    /\ ((stream_type = ST_FIRMWARE_CONFIG_REQUEST
         /\ response_type = ST_FIRMWARE_CONFIG_RESPONSE
         /\ handle_firmware_config_request m node_id payload = (m', Ret (Some p)))
        \/ (stream_type = ST_FIRMWARE_REQUEST
            /\ response_type = ST_FIRMWARE_RESPONSE
            /\ handle_firmware_request m node_id payload = (m', Ret (Some p))))
    /\ line = format_message node_id 255 C_STREAM 0 response_type p
    /\ decode_fields line = Decoded node_id 255 C_STREAM 0 response_type p
    /\ strip line = line
    /\ contains newline line = false.
Proof.
  unfold handle_stream_message.
  destruct (Z.eqb_spec stream_type ST_FIRMWARE_CONFIG_REQUEST) as [Hc|Hc].
  - destruct (handle_firmware_config_request m node_id payload)
      as [m' [[p|]|]] eqn:E; try discriminate.
    destruct p as [|c0 p0]; [discriminate|]. cbn [truthy].
    intros [= <- <-]. exists m', ST_FIRMWARE_CONFIG_RESPONSE, (String c0 p0).
    pose proof (config_response_plain _ _ _ _ _ E) as Hp.
    destruct (plain_message_decodes node_id 255 C_STREAM 0
                ST_FIRMWARE_CONFIG_RESPONSE _ Hp) as (H1 & H2 & H3).
    split; [reflexivity|]. split; [left; auto|]. split; [reflexivity|].
    split; [exact H1|]. split; [exact H2|exact H3].
  - destruct (Z.eqb_spec stream_type ST_FIRMWARE_REQUEST) as [Hr|Hr];
      [|discriminate].
    destruct (handle_firmware_request m node_id payload)
      as [m' [[p|]|]] eqn:E; try discriminate.
    destruct p as [|c0 p0]; [discriminate|]. cbn [truthy].
    intros [= <- <-]. exists m', ST_FIRMWARE_RESPONSE, (String c0 p0).
    pose proof (block_response_plain _ _ _ _ _ E) as Hp.
    destruct (plain_message_decodes node_id 255 C_STREAM 0
                ST_FIRMWARE_RESPONSE _ Hp) as (H1 & H2 & H3).
    split; [reflexivity|]. split; [right; auto|]. split; [reflexivity|].
    split; [exact H1|]. split; [exact H2|exact H3].
Qed.

(** X27. The reboot request is a line of the wire format: the decoder
    reads from it the node id, child 255, the internal command, the ack
    flag, the reboot type and an empty payload. With the values 3 and 13
    that test_reboot.py expects for the two constants, the message without
    ack is the node id followed by [;255;3;0;13;], for every node id. *)
Theorem reboot_message_is_wire_line (node_id : Z) (request_ack : bool) :
  let ack := if request_ack then 1 else 0 in
  let line := reboot_message C_INTERNAL I_REBOOT node_id request_ack in
  line = format_message node_id 255 C_INTERNAL ack I_REBOOT EmptyString
  /\ decode_fields line
     = Decoded node_id 255 C_INTERNAL ack I_REBOOT EmptyString
  /\ strip line = line
  /\ contains newline line = false
  /\ reboot_message 3 13 node_id false = str node_id +:+ ";255;3;0;13;".
Proof.
  cbv zeta.
  assert (Hf : reboot_message C_INTERNAL I_REBOOT node_id request_ack
               = format_message node_id 255 C_INTERNAL
                   (if request_ack then 1 else 0) I_REBOOT EmptyString).
  { unfold reboot_message, format_message. destruct request_ack; reflexivity. }
  rewrite Hf.
  destruct (plain_message_decodes node_id 255 C_INTERNAL
              (if request_ack then 1 else 0) I_REBOOT EmptyString eq_refl)
    as (H1 & H2 & H3).
  split; [reflexivity|]. split; [exact H1|]. split; [exact H2|].
  split; [exact H3|reflexivity].
Qed.

(** X28. Once an update is scheduled for a node, each heartbeat or wake-up
    of that node is answered with a reboot request: the request line is
    handed to [sendall], which writes it to the socket as one line when it
    succeeds, and only its first characters when it fails. After the
    node's config request (with a payload of five words) was handled,
    such a message is not answered any more and nothing is written. *)
Theorem reboot_requested_until_config_request
    (self : OTAFirmwareManager.t) (node_id fw_type fw_ver typ : Z)
    (payload : string) (ws : list Z) (written : string) (io : sendall) :
  is_Some (firmware_store self !! (fw_type, fw_ver)) ->
  fw_hex_to_int payload 5 = Some ws ->
  typ = I_HEARTBEAT_RESPONSE \/ typ = I_POST_SLEEP_NOTIFICATION ->
  let s1 := (request_update self node_id fw_type fw_ver).1 in
  let s2 := (handle_firmware_config_request s1 node_id payload).1 in
  let line := reboot_message C_INTERNAL I_REBOOT node_id false
              +:+ String newline EmptyString in
  reboot_if_required C_INTERNAL I_REBOOT I_HEARTBEAT_RESPONSE
    I_POST_SLEEP_NOTIFICATION (Some s1) (Some written) node_id typ Sent
    = Some (written +:+ line)
  /\ (forall n,
       reboot_if_required C_INTERNAL I_REBOOT I_HEARTBEAT_RESPONSE
         I_POST_SLEEP_NOTIFICATION (Some s1) (Some written) node_id typ
         (Failed n)
       = Some (written +:+ first_chars n line))
  /\ reboot_if_required C_INTERNAL I_REBOOT I_HEARTBEAT_RESPONSE
       I_POST_SLEEP_NOTIFICATION (Some s2) (Some written) node_id typ io
     = Some written.
Proof.
  intros [fw Hfw] Hdec Htyp. cbv zeta.
  assert (Hcond : (typ =? I_HEARTBEAT_RESPONSE)
                  || (typ =? I_POST_SLEEP_NOTIFICATION) = true).
  { apply orb_true_iff. destruct Htyp as [->| ->];
      [left|right]; apply Z.eqb_refl. }
  unfold reboot_if_required. rewrite Hcond.
  unfold request_update. rewrite Hfw. cbn [fst].
  assert (Hreq1 : is_reboot_required
            {| firmware_store := firmware_store self;
               requested_nodes :=
                 <[node_id:=(fw_type, fw_ver)]> (requested_nodes self);
               unstarted_nodes := delete node_id (unstarted_nodes self);
               started_nodes := delete node_id (started_nodes self) |}
            node_id = true).
  { unfold is_reboot_required. cbn [requested_nodes].
    rewrite lookup_insert_eq. now rewrite bool_decide_eq_true_2 by eauto. }
  rewrite Hreq1. split; [reflexivity|]. split; [reflexivity|].
  unfold handle_firmware_config_request. rewrite Hdec.
  cbn [requested_nodes unstarted_nodes firmware_store].
  rewrite lookup_insert_eq. cbn [or_get]. rewrite Hfw.
  assert (Hreq : forall r : result (option string),
    is_reboot_required
      ({| firmware_store := firmware_store self;
          requested_nodes :=
            delete node_id (<[node_id:=(fw_type, fw_ver)]> (requested_nodes self));
          unstarted_nodes :=
            <[node_id:=(fw_type, fw_ver)]> (delete node_id (unstarted_nodes self));
          started_nodes := delete node_id (started_nodes self) |}, r).1
      node_id = false).
  { intros r. unfold is_reboot_required. cbn.
    rewrite lookup_delete_eq.
    now rewrite bool_decide_eq_false_2 by (intros [? ?]; discriminate). }
  destruct (fw_int_to_hex _); now rewrite Hreq.
Qed.

End Stream.

Section StreamSamples.

Import Py OTAFirmwareManager Gateway Link.

(** Node 7, unstarted, asks for block 1 of firmware (9,9); the constants
    are stream command 4 and stream types 0 to 3. *)
Lemma stream_response_is_wire_line_witness :
  exists m' p,
    handle_firmware_request Sample.unstarted_3_2 7 "090009000100"
      = (m', Ret (Some p))
    /\ decode_fields (format_message 7 255 4 0 3 p) = Decoded 7 255 4 0 3 p.
Proof.
  destruct (handle_stream_message 4 0 1 2 3 (Some Sample.unstarted_3_2)
              7 255 2 "090009000100") as [ota' [line|]] eqn:E;
    [|vm_compute in E; discriminate E].
  destruct (stream_response_is_wire_line 4 0 1 2 3 Sample.unstarted_3_2
              7 255 2 "090009000100" ota' line E)
    as (m' & rt & p & _ & [(H & _)|(_ & -> & Hh)] & -> & Hd & _);
    [discriminate H|].
  exists m', p. split; [exact Hh|exact Hd].
Defined.

(** Node 7 is scheduled for firmware (3,2) and sends a heartbeat; the
    constants are taken as 3, 13, 22 and 33. *)
Lemma reboot_requested_until_config_request_witness :
  reboot_if_required 3 13 22 33 (Some Sample.scheduled) (Some EmptyString) 7 22
    Sent
    = Some (reboot_message 3 13 7 false +:+ String newline EmptyString)
  /\ reboot_if_required 3 13 22 33 (Some Sample.scheduled) (Some EmptyString)
       7 22 (Failed 5)
     = Some "7;255"
  /\ reboot_if_required 3 13 22 33
       (Some (handle_firmware_config_request Sample.scheduled 7
                Sample.config_payload).1)
       (Some EmptyString) 7 22 Sent
     = Some EmptyString.
Proof.
  destruct (reboot_requested_until_config_request 3 13 22 33
              (load_firmware init 3 2 (Some Sample.image_320)).1 7 3 2 22
              Sample.config_payload [1; 1; 0; 0; 65535] EmptyString Sent)
    as (H1 & H2 & H3).
  - vm_compute. eexists. reflexivity.
  - vm_compute. reflexivity.
  - left. reflexivity.
  - split; [exact H1|]. split; [exact (H2 5%nat)|exact H3].
Defined.

End StreamSamples.

Section Custom.

Import Py OTAFirmwareManager Gateway Link.

Lemma in_range_spec (lo hi x : Z) : in_range lo hi x = true <-> lo <= x <= hi.
Proof. unfold in_range. rewrite andb_true_iff, !Z.leb_le. tauto. Qed.

(** X29. When [send_custom_message] flashes "Message sent", there was a
    socket and the message, followed by a newline, was handed to
    [sendall]: the socket received the whole line if [sendall] succeeded
    and only its first characters if it raised, and "Message sent" is
    flashed in either case. The five numbers of the form (or their
    defaults) are within 0..255, 0..255, 0..4, 0..1 and 0..255; the
    message is these numbers and the stripped payload in the wire format
    and is not changed by stripping; and if the payload holds no
    separator the decoder reads the same numbers and the stripped payload
    back from it. *)
Theorem custom_message_sent_is_valid
    (gateway_socket socket' : option string) (f : form) (io : sendall)
    (message : string) :
  send_custom_message gateway_socket f io = (socket', MessageSent message) ->
  let payload := strip (default EmptyString (f_payload f)) in
  let line := message +:+ String newline EmptyString in
  exists written node_id child_id command ack msg_type,
    gateway_socket = Some written
    /\ socket' = match io with
                 | Sent => Some (written +:+ line)
                 | Failed n => Some (written +:+ first_chars n line)
                 end
    /\ (forall io', (send_custom_message gateway_socket f io').2
                    = MessageSent message)
    /\ form_int (f_node_id f) 255 = Some node_id
    /\ form_int (f_child_id f) 255 = Some child_id
    /\ form_int (f_command f) 3 = Some command
    /\ form_int (f_ack f) 0 = Some ack
    /\ form_int (f_msg_type f) 13 = Some msg_type
    /\ 0 <= node_id <= 255 /\ 0 <= child_id <= 255 /\ 0 <= command <= 4
    /\ 0 <= ack <= 1 /\ 0 <= msg_type <= 255
    /\ message = format_message node_id child_id command ack msg_type payload
    /\ strip message = message
    /\ (contains ";" payload = false ->
        decode_fields message
        = Decoded node_id child_id command ack msg_type payload).
Proof.
  unfold send_custom_message. cbv zeta.
  destruct gateway_socket as [written|]; [|discriminate].
  destruct (form_int (f_node_id f) 255) as [n|]; [|discriminate].
  destruct (form_int (f_child_id f) 255) as [c|]; [|discriminate].
  destruct (form_int (f_command f) 3) as [cmd|]; [|discriminate].
  destruct (form_int (f_ack f) 0) as [a|]; [|discriminate].
  destruct (form_int (f_msg_type f) 13) as [t|]; [|discriminate].
  destruct (in_range 0 255 n) eqn:Hn; [|discriminate].
  destruct (in_range 0 255 c) eqn:Hc; [|discriminate].
  destruct (in_range 0 4 cmd) eqn:Hcmd; [|discriminate].
  destruct (in_range 0 1 a) eqn:Ha; [|discriminate].
  destruct (in_range 0 255 t) eqn:Ht; [|discriminate].
  cbn [negb send_message_to_gateway snd]. intros [= <- <-].
  apply in_range_spec in Hn, Hc, Hcmd, Ha, Ht.
  exists written, n, c, cmd, a, t.
  assert (Hr : rstrip (strip (default EmptyString (f_payload f)))
               = strip (default EmptyString (f_payload f))).
  { unfold strip. apply rstrip_idempotent. }
  destruct (strip_format_message n c cmd a t _ Hr) as [Hs _].
  split; [reflexivity|]. split; [now destruct io|].
  split; [intros io'; reflexivity|].
  repeat (split; [first [reflexivity|assumption|lia]|]).
  intros Hsep. now apply decode_fields_format_message.
Qed.

Lemma custom_message_sent_is_valid_witness :
  let f := {| f_node_id := Some "7"; f_child_id := None;
              f_command := None; f_ack := Some "0"; f_msg_type := None;
              f_payload := Some "  " |} in
  send_custom_message (Some EmptyString) f (Failed 5)
    = (Some "7;255", MessageSent "7;255;3;0;13;")
  /\ strip "7;255;3;0;13;" = "7;255;3;0;13;"
  /\ (send_custom_message (Some EmptyString) f Sent).2
     = MessageSent "7;255;3;0;13;".
Proof.
  cbv zeta. split; [vm_compute; reflexivity|].
  destruct (custom_message_sent_is_valid (Some EmptyString) (Some "7;255")
              {| f_node_id := Some "7"; f_child_id := None;
                 f_command := None; f_ack := Some "0"; f_msg_type := None;
                 f_payload := Some "  " |} (Failed 5) "7;255;3;0;13;")
    as (w & n & c & cmd & a & t & H).
  - vm_compute. reflexivity.
  - destruct H as (_ & _ & Hflash & _ & _ & _ & _ & _ & _ & _ & _ & _ & _ & _
                   & Hs & _).
    split; [exact Hs|exact (Hflash Sent)].
Defined.

End Custom.

Section BlankLines.

Import Py Gateway.

(** X30. A blank line (empty or white space only) is ignored without
    touching the memory of the last line: a line repeated within a second
    is dropped as a duplicate even when blank lines arrived in between. *)
Theorem blank_line_keeps_dedup_memory
    (st : state) (line blank : string) (t1 t2 t3 : Q) :
  strip line <> EmptyString ->
  strip blank = EmptyString ->
  (t3 - t1 <= 1)%Q ->
  let s1 := (process_gateway_message st t1 line).1 in
  process_gateway_message s1 t2 blank = (s1, Blank)
  /\ (process_gateway_message (process_gateway_message s1 t2 blank).1 t3 line).2
     = Duplicate.
Proof.
  intros Hne Hb Ht. cbv zeta.
  rewrite (process_remembers st t1 line Hne).
  assert (Hblank : forall s, process_gateway_message s t2 blank = (s, Blank)).
  { intros s. unfold process_gateway_message. now rewrite Hb. }
  rewrite Hblank. split; [reflexivity|]. cbn [fst].
  now rewrite process_repeat.
Qed.

Lemma blank_line_keeps_dedup_memory_witness :
  let s1 := (process_gateway_message (initial 0) 10 "5;1;1;0;2;37").1 in
  process_gateway_message s1 (103 # 10) "   " = (s1, Blank)
  /\ (process_gateway_message
        (process_gateway_message s1 (103 # 10) "   ").1 (106 # 10)
        "5;1;1;0;2;37").2 = Duplicate.
Proof.
  apply (blank_line_keeps_dedup_memory (initial 0) "5;1;1;0;2;37" "   "
           10 (103 # 10) (106 # 10)).
  - vm_compute. discriminate.
  - vm_compute. reflexivity.
  - vm_compute. discriminate.
Defined.

End BlankLines.
